(** * Scotty beam tracing: state codec, evolution right-hand side and launch

    A shallow embedding of [scotty/fun_evolution_3D.py] and
    [scotty/launch.py].  Floating point numbers are idealised as the real
    numbers of the Standard Library, [complex128] as pairs of reals.  Python
    exceptions are values of an error type, and the [print] and
    [warnings.warn] calls of [launch_beam] are recorded in an event log. *)

From Stdlib Require Import Reals Lra Lia List String Bool.
Import ListNotations.

Open Scope R_scope.

(** ** Python runtime: exceptions and the error monad *)

Module Py.

Inductive exn : Type :=
| TypeError (msg : string)
| IndexError (index size : nat)
| KeyError (key : string)
| ValueError (msg : string)
| RuntimeError (msg : string)
| UnboundLocalError (var : string)
| ZeroDivisionError (msg : string)
| ExternalError (msg : string).

Inductive result (A : Type) : Type :=
| Ok (a : A)
| Raise (e : exn).

Arguments Ok {A} a.
Arguments Raise {A} e.

Definition bind {A B : Type} (m : result A) (k : A -> result B) : result B :=
  match m with
  | Ok a => k a
  | Raise e => Raise e
  end.

Definition returns {A : Type} (m : result A) : Prop :=
  exists a, m = Ok a.

Definition raises {A : Type} (m : result A) : Prop :=
  exists e, m = Raise e.

End Py.

Import Py.

Declare Scope py_scope.
Delimit Scope py_scope with py.
Notation "x <- m ;; k" := (bind m (fun x => k))
  (at level 61, m at next level, right associativity) : py_scope.
Notation "' pat <- m ;; k" := (bind m (fun x => match x with pat => k end))
  (at level 61, pat pattern, m at next level, right associativity) : py_scope.
Open Scope py_scope.

(** ** Complex numbers ([complex128] over the reals) *)

Record C : Type := mkC { np_real : R; np_imag : R }.

Definition RtoC (x : R) : C := mkC x 0.
Definition C0 : C := RtoC 0.
Definition C1 : C := RtoC 1.
(** The Python literal [1j]. *)
Definition Cj : C := mkC 0 1.

Definition Cadd (a b : C) : C := mkC (np_real a + np_real b) (np_imag a + np_imag b).
Definition Copp (a : C) : C := mkC (- np_real a) (- np_imag a).
Definition Csub (a b : C) : C := mkC (np_real a - np_real b) (np_imag a - np_imag b).
Definition Cmul (a b : C) : C :=
  mkC (np_real a * np_real b - np_imag a * np_imag b)
      (np_real a * np_imag b + np_imag a * np_real b).
Definition Cnorm2 (a : C) : R := np_real a * np_real a + np_imag a * np_imag a.
Definition Cinv (a : C) : C := mkC (np_real a / Cnorm2 a) (- np_imag a / Cnorm2 a).
Definition Cdiv (a b : C) : C := Cmul a (Cinv b).

Declare Scope C_scope.
Delimit Scope C_scope with C.
Bind Scope C_scope with C.
Infix "+" := Cadd : C_scope.
Infix "-" := Csub : C_scope.
Infix "*" := Cmul : C_scope.
Infix "/" := Cdiv : C_scope.
Notation "- x" := (Copp x) : C_scope.

(** ** 3x3 complex matrices, as numpy arrays of shape (3, 3) *)

Inductive ix : Type := i0 | i1 | i2.

Record M3 : Type := mkM3 {
  m00 : C; m01 : C; m02 : C;
  m10 : C; m11 : C; m12 : C;
  m20 : C; m21 : C; m22 : C
}.

(** [m[i, j]] *)
Definition mget (m : M3) (i j : ix) : C :=
  match i, j with
  | i0, i0 => m00 m | i0, i1 => m01 m | i0, i2 => m02 m
  | i1, i0 => m10 m | i1, i1 => m11 m | i1, i2 => m12 m
  | i2, i0 => m20 m | i2, i1 => m21 m | i2, i2 => m22 m
  end.

Definition M3_of_fun (f : ix -> ix -> C) : M3 :=
  mkM3 (f i0 i0) (f i0 i1) (f i0 i2)
       (f i1 i0) (f i1 i1) (f i1 i2)
       (f i2 i0) (f i2 i1) (f i2 i2).

Definition ix_eqb (a b : ix) : bool :=
  match a, b with
  | i0, i0 | i1, i1 | i2, i2 => true
  | _, _ => false
  end.

(** [m[i, j] = v], the array after the in-place assignment. *)
Definition mset (m : M3) (i j : ix) (v : C) : M3 :=
  M3_of_fun (fun a b => if ix_eqb a i && ix_eqb b j then v else mget m a b).

(** [np.zeros([3, 3], dtype="complex128")] *)
Definition np_zeros_3x3 : M3 := M3_of_fun (fun _ _ => C0).

Definition np_transpose (m : M3) : M3 := M3_of_fun (fun i j => mget m j i).

Definition np_matmul (a b : M3) : M3 :=
  M3_of_fun (fun i j =>
    (mget a i i0 * mget b i0 j + mget a i i1 * mget b i1 j + mget a i i2 * mget b i2 j)%C).

Definition Madd (a b : M3) : M3 := M3_of_fun (fun i j => (mget a i j + mget b i j)%C).
Definition Msub (a b : M3) : M3 := M3_of_fun (fun i j => (mget a i j - mget b i j)%C).
Definition Mopp (a : M3) : M3 := M3_of_fun (fun i j => (- mget a i j)%C).

Definition symmetric (m : M3) : Prop := np_transpose m = m.

(** ** numpy arrays of reals, as far as the codec uses them *)

Inductive ndarray : Type :=
| Arr0 (x : R)            (* zero-dimensional array holding one scalar *)
| Arr1 (xs : list R).     (* one-dimensional array *)

(** [numpy.array(object, dtype=None, *, copy, order, subok, ndmin, like)]
    called with positional arguments only, all of them real scalars.  The
    function takes the data as its single first argument and a dtype as an
    optional second one; everything else is keyword-only. *)
Definition np_array (args : list R) : result ndarray :=
  match args with
  | [] => Raise (TypeError "array() missing required argument 'object' (pos 0)")
  | [x] => Ok (Arr0 x)
  | [_; _] => Raise (TypeError "Cannot interpret a float as a data type")
  | _ => Raise (TypeError "array() takes from 1 to 2 positional arguments")
  end.

(** [a[i, ...]] for an integer [i >= 0]. *)
Definition item (a : ndarray) (i : nat) : result R :=
  match a with
  | Arr0 _ => Raise (IndexError i 0)
  | Arr1 xs =>
      match nth_error xs i with
      | Some x => Ok x
      | None => Raise (IndexError i (List.length xs))
      end
  end.

(** ** [scotty/fun_evolution_3D.py] *)

Module Evolution.

(** The tuple returned by [unpack_beam_parameters_3D]. *)
Record beam : Type := mkBeam {
  q_X : R; q_Y : R; q_Z : R;
  K_X : R; K_Y : R; K_Z : R;
  Psi : M3
}.

(** Pack coordinates and Psi matrix into single flat array: the eighteen
    values are handed to [np.array] as eighteen positional arguments. *)
Definition pack_beam_parameters_3D
    (q_X q_Y q_Z K_X K_Y K_Z : R) (Psi : M3) : result ndarray :=
  np_array
    [ q_X; q_Y; q_Z; K_X; K_Y; K_Z;
      np_real (mget Psi i0 i0);   (* Psi_xx *)
      np_real (mget Psi i1 i1);   (* Psi_yy *)
      np_real (mget Psi i2 i2);   (* Psi_zz *)
      np_real (mget Psi i0 i1);   (* Psi_xy *)
      np_real (mget Psi i0 i2);   (* Psi_xz *)
      np_real (mget Psi i1 i2);   (* Psi_yz *)
      np_imag (mget Psi i0 i0);
      np_imag (mget Psi i1 i1);
      np_imag (mget Psi i2 i2);
      np_imag (mget Psi i0 i1);
      np_imag (mget Psi i0 i2);
      np_imag (mget Psi i1 i2) ].

(** [a + 1j * b] for two real scalars. *)
Definition cplx (a b : R) : C := (RtoC a + Cj * RtoC b)%C.

(** Unpack the flat solver state vector (one ray point, so [n_points = 1]
    and [np.squeeze] leaves a 3x3 matrix).  The assignments to [Psi] are
    performed in the order of the source, each on the array left by the
    previous one. *)
Definition unpack_beam_parameters_3D (beam_parameters : ndarray) : result beam :=
  q_X <- item beam_parameters 0 ;;
  q_Y <- item beam_parameters 1 ;;
  q_Z <- item beam_parameters 2 ;;
  K_X <- item beam_parameters 3 ;;
  K_Y <- item beam_parameters 4 ;;
  K_Z <- item beam_parameters 5 ;;
  let Psi := np_zeros_3x3 in
  b6 <- item beam_parameters 6 ;; b12 <- item beam_parameters 12 ;;
  let Psi := mset Psi i0 i0 (cplx b6 b12) in      (* Psi_xx *)
  b7 <- item beam_parameters 7 ;; b13 <- item beam_parameters 13 ;;
  let Psi := mset Psi i1 i1 (cplx b7 b13) in      (* Psi_yy *)
  b8 <- item beam_parameters 8 ;; b14 <- item beam_parameters 14 ;;
  let Psi := mset Psi i2 i2 (cplx b8 b14) in      (* Psi_zz *)
  b9 <- item beam_parameters 9 ;; b15 <- item beam_parameters 15 ;;
  let Psi := mset Psi i0 i1 (cplx b9 b15) in      (* Psi_xy *)
  b10 <- item beam_parameters 10 ;; b16 <- item beam_parameters 16 ;;
  let Psi := mset Psi i0 i2 (cplx b10 b16) in     (* Psi_xz *)
  b11 <- item beam_parameters 11 ;; b17 <- item beam_parameters 17 ;;
  let Psi := mset Psi i1 i2 (cplx b11 b17) in     (* Psi_yz *)
  let Psi := mset Psi i0 i1 (mget Psi i1 i0) in   (* Psi[:,0,1] = Psi[:,1,0] *)
  let Psi := mset Psi i2 i0 (mget Psi i0 i2) in   (* Psi[:,2,0] = Psi[:,0,2] *)
  let Psi := mset Psi i2 i1 (mget Psi i1 i2) in   (* Psi[:,2,1] = Psi[:,1,2] *)
  Ok (mkBeam q_X q_Y q_Z K_X K_Y K_Z Psi).

(** The dictionary of named partial derivatives returned by the dispersion
    provider. *)
Definition dict : Type := string -> option R.

Definition getitem (d : dict) (key : string) : result R :=
  match d key with
  | Some x => Ok x
  | None => Raise (KeyError key)
  end.

(** The right-hand side of the Riccati equation, as the source writes it. *)
Definition d_Psi_d_tau (Psi grad_grad_H gradK_grad_H gradK_gradK_H : M3) : M3 :=
  let grad_gradK_H := np_transpose gradK_grad_H in
  Msub (Msub (Msub (Mopp grad_grad_H)
                   (np_matmul Psi gradK_grad_H))
             (np_matmul grad_gradK_H Psi))
       (np_matmul (np_matmul Psi gradK_gradK_H) Psi).

Section RightHandSide.

(** [hessians_3D] of [scotty.hamiltonian_3D], which is not part of the
    sources: it assembles the three second-partial tensors from the
    dictionary. *)
Variable hessians_3D : dict -> result (M3 * M3 * M3).

(** [hamiltonian.derivatives(q_X, q_Y, q_Z, K_X, K_Y, K_Z)] *)
Definition Hamiltonian_3D : Type := R -> R -> R -> R -> R -> R -> result dict.

Definition beam_evolution_fun_3D
    (tau : R) (beam_parameters : ndarray) (hamiltonian : Hamiltonian_3D)
  : result ndarray :=
  b <- unpack_beam_parameters_3D beam_parameters ;;
  dH <- hamiltonian (q_X b) (q_Y b) (q_Z b) (K_X b) (K_Y b) (K_Z b) ;;
  '(grad_grad_H, gradK_grad_H, gradK_gradK_H) <- hessians_3D dH ;;
  dH_dX <- getitem dH "dH_dX" ;;
  dH_dY <- getitem dH "dH_dY" ;;
  dH_dZ <- getitem dH "dH_dZ" ;;
  dH_dKx <- getitem dH "dH_dKx" ;;
  dH_dKy <- getitem dH "dH_dKy" ;;
  dH_dKz <- getitem dH "dH_dKz" ;;
  let dPsi := d_Psi_d_tau (Psi b) grad_grad_H gradK_grad_H gradK_gradK_H in
  pack_beam_parameters_3D dH_dKx dH_dKy dH_dKz (- dH_dX) (- dH_dY) (- dH_dZ) dPsi.

End RightHandSide.

End Evolution.

(** ** [scotty/launch.py] *)

Module Launch.

Open Scope string_scope.

(** *** Side effects of [launch_beam]: warnings and prints *)

Inductive printable : Type :=
| PStr (s : string)
| PReal (x : R)
| PMat (m : M3).

Inductive event : Type :=
| Warn (category msg : string)
| Print (args : list printable).

(** A computation that logs events and then returns or raises. *)
Definition io (A : Type) : Type := (list event * result A)%type.

Definition ret {A : Type} (a : A) : io A := ([], Ok a).
Definition raise {A : Type} (e : exn) : io A := ([], Raise e).
Definition emit (e : event) : io unit := ([e], Ok tt).
Definition lift {A : Type} (m : result A) : io A := ([], m).

Definition iobind {A B : Type} (m : io A) (k : A -> io B) : io B :=
  match m with
  | (log, Ok a) => let (log', r) := k a in ((log ++ log')%list, r)
  | (log, Raise e) => (log, Raise e)
  end.

Notation "x <~ m ;; k" := (iobind m (fun x => k))
  (at level 61, m at next level, right associativity) : py_scope.
Notation "' pat <~ m ;; k" := (iobind m (fun x => match x with pat => k end))
  (at level 61, pat pattern, m at next level, right associativity) : py_scope.
Notation "m ;;; k" := (iobind m (fun _ => k))
  (at level 61, right associativity) : py_scope.

(** *** Vectors and 2x2 matrices *)

Definition V3 : Type := (R * R * R)%type.

Definition V3_add (a b : V3) : V3 :=
  let '(a0, a1, a2) := a in let '(b0, b1, b2) := b in (a0 + b0, a1 + b1, a2 + b2).
Definition V3_scale (k : R) (a : V3) : V3 :=
  let '(a0, a1, a2) := a in (k * a0, k * a1, k * a2).

Record M2 : Type := mkM2 { a00 : C; a01 : C; a10 : C; a11 : C }.

(** [np.eye(2)] *)
Definition np_eye2 : M2 := mkM2 C1 C0 C0 C1.
(** A scalar times a 2x2 array, elementwise. *)
Definition M2_scale (k : C) (m : M2) : M2 :=
  mkM2 (k * a00 m) (k * a01 m) (k * a10 m) (k * a11 m).
Definition M2_add (a b : M2) : M2 :=
  mkM2 (a00 a + a00 b) (a01 a + a01 b) (a10 a + a10 b) (a11 a + a11 b).
Definition M2_mul (a b : M2) : M2 :=
  mkM2 (a00 a * a00 b + a01 a * a10 b) (a00 a * a01 b + a01 a * a11 b)
       (a10 a * a00 b + a11 a * a10 b) (a10 a * a01 b + a11 a * a11 b).

(** The determinant of a 2x2 array. *)
Definition det2 (m : M2) : C := (a00 m * a11 m - a01 m * a10 m)%C.

(** Modelled from the spec: [find_inverse_2D] of [scotty.fun_general] is not
    part of the sources.  The spec (4.4, step 8) has the transverse beam
    matrix inverted and, after the vacuum term is added, inverted back;
    this is the inverse of a 2x2 matrix, adjugate over determinant. *)
Definition find_inverse_2D (m : M2) : M2 :=
  let determinant := (a00 m * a11 m - a01 m * a10 m)%C in
  mkM2 (a11 m / determinant) (- a01 m / determinant)
       (- a10 m / determinant) (a00 m / determinant).

(** Modelled from the spec: [make_array_3x3] of [scotty.fun_general] is not
    part of the sources.  The spec (4.4, step 3) embeds the 2x2 transverse
    matrix into a 3x3 matrix with a zero third row and column. *)
Definition make_array_3x3 (m : M2) : M3 :=
  mkM3 (a00 m) (a01 m) C0
       (a10 m) (a11 m) C0
       C0      C0      C0.

(** A real 3x3 array. *)
Definition M3_of_reals (r00 r01 r02 r10 r11 r12 r20 r21 r22 : R) : M3 :=
  mkM3 (RtoC r00) (RtoC r01) (RtoC r02)
       (RtoC r10) (RtoC r11) (RtoC r12)
       (RtoC r20) (RtoC r21) (RtoC r22).

(** *** Configuration values *)

(** [Psi_BC_flag : Union[bool, str, None]] *)
Inductive py_flag : Type :=
| PyBool (b : bool)
| PyNone
| PyStr (s : string).

(** [str(flag)], as an f-string renders it. *)
Definition str_of_flag (f : py_flag) : string :=
  match f with
  | PyBool true => "True"
  | PyBool false => "False"
  | PyNone => "None"
  | PyStr s => s
  end.

Definition deprecation_message : string :=
  "Boolean `Psi_BC_flag` is deprecated, please use None, 'continuous', or 'discontinuous'".

(** Lines 103-124 of [launch_beam]: the value [Psi_BC_flag] is rebound to. *)
Definition normalise_Psi_BC_flag (Psi_BC_flag : py_flag) : io py_flag :=
  match Psi_BC_flag with
  | PyBool true =>
      emit (Warn "DeprecationWarning" deprecation_message) ;;;
      emit (Print [PStr "Setting Psi_BC_flag = 'continuous' for backward compatibility"]) ;;;
      ret (PyStr "continuous")
  | PyBool false =>
      emit (Warn "DeprecationWarning" deprecation_message) ;;;
      emit (Print [PStr "Setting Psi_BC_flag = None for backward compatibility "]) ;;;
      ret PyNone
  | PyNone => ret PyNone
  | PyStr s =>
      if negb (s =? "continuous") && negb (s =? "discontinuous")
      then raise (ValueError
             ("Unexpected value for `Psi_BC_flag` (" ++ str_of_flag Psi_BC_flag
              ++ "), expected one of None, 'continuous, or 'discontinuous'"))
      else ret Psi_BC_flag
  end.

(** *** The magnetic field and the dispersion model *)

Record MagneticField : Type := mkField {
  R_coord : list R;
  Z_coord : list R;
  poloidal_flux : R -> R -> R
}.

Definition dict : Type := Evolution.dict.

(** [hamiltonian.derivatives(X, Y, Z, K_X, K_Y, K_Z, second_order=True)] *)
Record Hamiltonian : Type := mkHamiltonian {
  derivatives : R -> R -> R -> R -> R -> R -> bool -> result dict
}.

(** [a.max()] of a one-dimensional array; numpy refuses an empty one. *)
Definition np_max (xs : list R) : result R :=
  match xs with
  | [] => Raise (ValueError
            "zero-size array to reduction operation maximum which has no identity")
  | x :: rest => Ok (fold_left Rmax rest x)
  end.

Definition np_hypot (a b : R) : R := sqrt (a * a + b * b).
Definition np_deg2rad (x : R) : R := x * (PI / 180).

(** [np.linspace(0, 1, n)] for [n >= 2]. *)
Definition np_linspace01 (n : nat) : list R :=
  map (fun i => INR i / INR (n - 1)) (seq 0 n).

(** [scipy.optimize.OptimizeResult], the fields read here. *)
Record OptimizeResult : Type := mkOptimize { opt_x : R; opt_fun : R }.

(** [scipy.optimize.RootResults], the fields read here. *)
Record RootResults : Type := mkRoot { converged : bool; flag : string; root : R }.

(** *** [find_entry_point] *)

Section Collaborators.

(** The coordinate conversions of [scotty.fun_general], which are not
    part of the sources. *)
Variable toroidal_to_cartesian : R -> R -> R -> V3.
Variable cartesian_to_cylindrical : R -> R -> R -> V3.

(** The scipy routines: the real roots of
    [CubicSpline(x, y, extrapolate=False)], [minimize_scalar(f)] and
    [root_scalar(f, x0=x0, x1=x1)]. *)
Variable CubicSpline_roots : list R -> list R -> list R.
Variable minimize_scalar : (R -> R) -> OptimizeResult.
Variable root_scalar : (R -> R) -> R -> R -> RootResults.

(** How an f-string renders a float. *)
Variable str_of_float : R -> string.

(** [max_length], the bound on the length of the path to the plasma. *)
Definition max_length (launch_position : V3) (field : MagneticField) : result R :=
  let '(X_start, Y_start, Z_start) := launch_position in
  R_max <- np_max (R_coord field) ;;
  let X_length := Rabs X_start + R_max in
  Z_max <- np_max (Z_coord field) ;;
  let Z_length := Rabs Z_start + Z_max in
  Ok (np_hypot X_length Z_length).

(** [step_array], from the angles as [find_entry_point] receives them. *)
Definition step_array
    (max_length poloidal_launch_angle toroidal_launch_angle : R) : V3 :=
  let toroidal_launch_angle := toroidal_launch_angle + PI in
  let poloidal_launch_angle := - poloidal_launch_angle in
  let '(X_step, Y_step, Z_step) :=
    toroidal_to_cartesian max_length poloidal_launch_angle toroidal_launch_angle in
  (X_step, Y_step, Z_step).

(** Parameterised line in beam direction *)
Definition beam_line (launch_position step_array : V3) (tau : R) : V3 :=
  V3_add launch_position (V3_scale tau step_array).

Definition to_cylindrical (p : V3) : V3 :=
  let '(X, Y, Z) := p in cartesian_to_cylindrical X Y Z.

(** Signed poloidal flux distance to plasma boundary *)
Definition poloidal_flux_boundary_along_line
    (launch_position step_array : V3) (field : MagneticField)
    (poloidal_flux_enter : R) (tau : R) : R :=
  let '(R_, _, Z_) := to_cylindrical (beam_line launch_position step_array tau) in
  poloidal_flux field R_ Z_ - poloidal_flux_enter.

Definition miss_message (R_miss zeta_miss Z_miss distance : R) : string :=
  let miss_coords :=
    "(R=" ++ str_of_float R_miss ++ ", zeta=" ++ str_of_float zeta_miss
    ++ ", Z=" ++ str_of_float Z_miss ++ ")" in
  "Beam does not hit plasma. Closest point is at " ++ miss_coords ++ ", "
  ++ "distance in poloidal flux to boundary=" ++ str_of_float distance.

Definition boundary_adjust_default : R := 1e-8.

Definition find_entry_point
    (launch_position : V3)
    (poloidal_launch_angle toroidal_launch_angle poloidal_flux_enter : R)
    (field : MagneticField) (boundary_adjust : R) : result V3 :=
  max_length <- max_length launch_position field ;;
  let step_array := step_array max_length poloidal_launch_angle toroidal_launch_angle in
  let beam_line := beam_line launch_position step_array in
  let poloidal_flux_boundary_along_line :=
    poloidal_flux_boundary_along_line launch_position step_array field
      poloidal_flux_enter in
  let tau := np_linspace01 100 in
  let spline_roots :=
    CubicSpline_roots tau (map poloidal_flux_boundary_along_line tau) in
  match spline_roots with
  | [] =>
      (* the beam never enters the plasma *)
      let minimum := minimize_scalar poloidal_flux_boundary_along_line in
      let '(R_miss, zeta_miss, Z_miss) := to_cylindrical (beam_line (opt_x minimum)) in
      Raise (RuntimeError (miss_message R_miss zeta_miss Z_miss (opt_fun minimum)))
  | root0 :: _ =>
      let boundary :=
        root_scalar poloidal_flux_boundary_along_line root0 (root0 + 1e-3) in
      if negb (converged boundary) then
        Raise (RuntimeError
          ("Could not find plasma boundary, root finding failed with '"
           ++ flag boundary ++ "'"))
      else
        let boundary_tau := root boundary in
        let '(R_boundary, _, Z_boundary) := to_cylindrical (beam_line boundary_tau) in
        let boundary_tau :=
          if Rgt_dec (poloidal_flux field R_boundary Z_boundary) poloidal_flux_enter
          then boundary_tau + boundary_adjust
          else boundary_tau in
        Ok (to_cylindrical (beam_line boundary_tau))
  end.

(** *** [launch_beam] *)

(** The remaining helpers of [scotty.fun_general]; each may raise. *)
Variable angular_frequency_to_wavenumber : R -> result R.
Variable find_Psi_3D_lab : M3 -> R -> R -> R -> R -> result M3.
Variable find_K_lab_Cartesian : V3 -> V3 -> result V3.
Variable find_K_lab : V3 -> V3 -> result V3.
Variable cylindrical_to_cartesian : R -> R -> R -> result V3.
Variable apply_discontinuous_BC :
  R -> R -> M3 -> R -> R -> R -> R -> Z -> R -> R ->
  MagneticField -> Hamiltonian -> option R -> result (V3 * M3).
Variable apply_continuous_BC :
  R -> R -> M3 -> R -> R -> R -> R -> R ->
  MagneticField -> Hamiltonian -> result (V3 * M3).

Record launch_args : Type := mkArgs {
  toroidal_launch_angle_Torbeam : R;
  poloidal_launch_angle_Torbeam : R;
  launch_beam_width : R;
  launch_beam_curvature : R;
  launch_position : V3;
  launch_angular_frequency : R;
  mode_flag : Z;
  field : MagneticField;
  hamiltonian : Hamiltonian;
  vacuumLaunch_flag : bool;
  vacuum_propagation_flag : bool;
  Psi_BC_flag : py_flag;
  poloidal_flux_enter : R;
  delta_R : R;
  delta_Z : R;
  temperature : option R;
  flag_coordinate_system : string
}.

(** What [launch_beam] hands back: [None] from the [return print(...)]
    of line 281, the tuple of line 292 (whose entry matrix is [None], whose
    Cartesian entry matrix is filled with NaN and whose distance is
    [None]), or the tuple of line 397. *)
Inductive launch_output : Type :=
| ReturnedNone
| NoVacuumPropagation
    (K_initial initial_position launch_K : V3)
    (Psi_3D_lab_initial Psi_3D_lab_launch : M3)
| Propagated
    (K_initial initial_position launch_K : V3)
    (Psi_3D_lab_initial Psi_3D_lab_launch Psi_3D_lab_entry
     Psi_3D_lab_entry_cartersian : M3)
    (distance_from_launch_to_entry : R).

(** [x ** (-2)] on a Python float. *)
Definition pow_minus_2 (x : R) : result R :=
  if Req_dec_T x 0
  then Raise (ZeroDivisionError "0.0 cannot be raised to a negative power")
  else Ok (/ (x * x)).

(** Line 160: [wavenumber_K0 * launch_beam_curvature + 2j * launch_beam_width ** (-2)] *)
Definition Psi_w_beam_diagonal (wavenumber_K0 curvature width : R) : result C :=
  p <- pow_minus_2 width ;;
  Ok (RtoC (wavenumber_K0 * curvature) + mkC 0 2 * RtoC p)%C.

Definition rotation_matrix_pol (poloidal_rotation_angle : R) : M3 :=
  M3_of_reals
    (cos poloidal_rotation_angle) 0 (sin poloidal_rotation_angle)
    0 1 0
    (- sin poloidal_rotation_angle) 0 (cos poloidal_rotation_angle).

Definition rotation_matrix_tor (toroidal_launch_angle : R) : M3 :=
  M3_of_reals
    (cos toroidal_launch_angle) (sin toroidal_launch_angle) 0
    (- sin toroidal_launch_angle) (cos toroidal_launch_angle) 0
    0 0 1.

(** The rotation from the beam frame to the lab frame that [launch_beam]
    builds from the two TORBEAM angles (in degrees). *)
Definition launch_rotation_matrix (a : launch_args) : M3 :=
  np_matmul
    (rotation_matrix_pol (np_deg2rad (poloidal_launch_angle_Torbeam a) + PI / 2))
    (rotation_matrix_tor (np_deg2rad (toroidal_launch_angle_Torbeam a))).

(** Lines 313-321. *)
Definition distance_from_launch_to_entry (launch_position entry_position : V3) : R :=
  let '(l0, l1, l2) := launch_position in
  let '(e0, e1, e2) := entry_position in
  sqrt (l0 * l0 + e0 * e0 - 2 * l0 * e0 * cos (e1 - l1) + (l2 - e2) * (l2 - e2)).

(** Lines 335-343: the beam-frame matrix at the entry point. *)
Definition Psi_3D_beam_entry_cartersian
    (distance wavenumber_K0 : R) (Psi_w_beam_launch_cartersian : M2) : M3 :=
  let Psi_w_beam_inverse_launch_cartersian :=
    find_inverse_2D Psi_w_beam_launch_cartersian in
  let Psi_w_beam_inverse_entry_cartersian :=
    M2_add (M2_scale (RtoC (distance / wavenumber_K0)) np_eye2)
           Psi_w_beam_inverse_launch_cartersian in
  make_array_3x3 (find_inverse_2D Psi_w_beam_inverse_entry_cartersian).

(** [R^T . Psi . R], the matrix in the lab frame. *)
Definition to_lab_frame (rotation_matrix Psi_beam : M3) : M3 :=
  let rotation_matrix_inverse := np_transpose rotation_matrix in
  np_matmul rotation_matrix_inverse (np_matmul Psi_beam rotation_matrix).

(** Lines 291-406: vacuum propagation to the plasma boundary and the
    boundary conditions there. *)
Definition launch_beam_propagate
    (a : launch_args) (Psi_BC_flag : py_flag)
    (toroidal_launch_angle poloidal_launch_angle wavenumber_K0 : R)
    (K_launch : V3) (Psi_w_beam_launch_cartersian : M2)
    (rotation_matrix Psi_3D_lab_launch : M3) : io launch_output :=
  let '(K_R_launch, K_zeta_launch, K_Z_launch) := K_launch in
  let launch_K := K_launch in
  if negb (vacuum_propagation_flag a) then
    ret (NoVacuumPropagation (K_R_launch, K_zeta_launch, K_Z_launch)
           (launch_position a) launch_K Psi_3D_lab_launch Psi_3D_lab_launch)
  else
    entry_position <~ lift (find_entry_point (launch_position a)
                              poloidal_launch_angle toroidal_launch_angle
                              (poloidal_flux_enter a) (field a)
                              boundary_adjust_default) ;;
    let distance := distance_from_launch_to_entry (launch_position a) entry_position in
    let K_lab_launch := (K_R_launch, K_zeta_launch, K_Z_launch) in
    K_lab_Cartesian_launch <~ lift (find_K_lab_Cartesian K_lab_launch (launch_position a)) ;;
    let K_lab_Cartesian_entry := K_lab_Cartesian_launch in
    let '(e0, e1, e2) := entry_position in
    entry_position_Cartesian <~ lift (cylindrical_to_cartesian e0 e1 e2) ;;
    K_lab_entry <~ lift (find_K_lab K_lab_Cartesian_entry entry_position_Cartesian) ;;
    let '(K_R_entry, K_zeta_entry, K_Z_entry) := K_lab_entry in
    let Psi_3D_beam_entry :=
      Psi_3D_beam_entry_cartersian distance wavenumber_K0 Psi_w_beam_launch_cartersian in
    let Psi_3D_lab_entry_cartersian := to_lab_frame rotation_matrix Psi_3D_beam_entry in
    Psi_3D_lab_entry <~ lift (find_Psi_3D_lab Psi_3D_lab_entry_cartersian
                                e0 e1 K_R_entry K_zeta_entry) ;;
    let initial_position := entry_position in
    '(K_initial, Psi_3D_lab_initial) <~
      match Psi_BC_flag with
      | PyStr "discontinuous" =>
          lift (apply_discontinuous_BC e0 e2 Psi_3D_lab_entry
                  K_R_entry K_zeta_entry K_Z_entry
                  (launch_angular_frequency a) (mode_flag a)
                  (delta_R a) (delta_Z a) (field a) (hamiltonian a) (temperature a))
      | PyStr "continuous" =>
          lift (apply_continuous_BC e0 e2 Psi_3D_lab_entry
                  K_R_entry K_zeta_entry K_Z_entry
                  (delta_R a) (delta_Z a) (field a) (hamiltonian a))
      | _ => ret ((K_R_entry, K_zeta_entry, K_Z_entry), Psi_3D_lab_entry)
      end ;;
    ret (Propagated K_initial initial_position launch_K
           Psi_3D_lab_initial Psi_3D_lab_launch Psi_3D_lab_entry
           Psi_3D_lab_entry_cartersian distance).

(** A local variable that may not have been assigned yet. *)
Definition read_local {A : Type} (name : string) (v : option A) : io A :=
  match v with
  | Some x => ret x
  | None => raise (UnboundLocalError name)
  end.

(** Lines 204-261: the launch matrix of the Cartesian mode.  Returns the
    beam-frame matrix after the in-place assignments and the lab-frame
    matrix.  The unit vector [g_hat] is computed and never read. *)
Definition cartesian_launch_matrix
    (a : launch_args) (K_launch : V3)
    (rotation_matrix Psi_3D_beam_launch_cartersian : M3) : io (M3 * M3) :=
  let '(K_R_launch, K_zeta_launch, K_Z_launch) := K_launch in
  let '(p0, p1, p2) := launch_position a in
  dH <~ lift (derivatives (hamiltonian a) p0 p1 p2
                K_R_launch K_zeta_launch K_Z_launch true) ;;
  dH_dX <~ lift (Evolution.getitem dH "dH_dX") ;;
  dH_dY <~ lift (Evolution.getitem dH "dH_dY") ;;
  dH_dZ <~ lift (Evolution.getitem dH "dH_dZ") ;;
  dH_dKX <~ lift (Evolution.getitem dH "dH_dKX") ;;
  dH_dKY <~ lift (Evolution.getitem dH "dH_dKY") ;;
  dH_dKZ <~ lift (Evolution.getitem dH "dH_dKZ") ;;
  let g_magnitude := sqrt (dH_dKX * dH_dKX + dH_dKY * dH_dKY + dH_dKZ * dH_dKZ) in
  let g_hat : V3 := (dH_dKX / g_magnitude, dH_dKY / g_magnitude, dH_dKZ / g_magnitude) in
  emit (Print [PMat Psi_3D_beam_launch_cartersian; PStr "Psi_3D_beam_launch_cartersian"]) ;;;
  (* Psi[:, 2] = grad_H *)
  let Psi := mset Psi_3D_beam_launch_cartersian i0 i2 (RtoC dH_dX) in
  let Psi := mset Psi i1 i2 (RtoC dH_dY) in
  let Psi := mset Psi i2 i2 (RtoC dH_dZ) in
  (* Psi[2, :] = grad_H *)
  let Psi := mset Psi i2 i0 (RtoC dH_dX) in
  let Psi := mset Psi i2 i1 (RtoC dH_dY) in
  let Psi := mset Psi i2 i2 (RtoC dH_dZ) in
  emit (Print [PMat Psi; PStr "Psi_3D_beam_launch_cartersian"]) ;;;
  let Psi_3D_lab_launch_cartersian := to_lab_frame rotation_matrix Psi in
  emit (Print [PStr "Psi_3D_lab_launch_cartersian"; PMat Psi_3D_lab_launch_cartersian]) ;;;
  ret (Psi, Psi_3D_lab_launch_cartersian).

Definition invalid_coordinate_system_message (flag : string) : list printable :=
  [ PStr ("The flag specified for 'flag_coordinate_system': '" ++ flag
          ++ "' does not exist.");
    PStr "'flag_coordinate_system' only accepts 'cylindrical' or 'cartesian'." ].

(** Lines 126-406, with [Psi_BC_flag] as lines 103-124 left it. *)
Definition launch_beam_body (a : launch_args) (Psi_BC_flag : py_flag)
  : io launch_output :=
  let toroidal_launch_angle := np_deg2rad (toroidal_launch_angle_Torbeam a) in
  let poloidal_launch_angle := np_deg2rad (poloidal_launch_angle_Torbeam a) in
  wavenumber_K0 <~ lift (angular_frequency_to_wavenumber (launch_angular_frequency a)) ;;
  emit (Print [PReal wavenumber_K0; PStr "wavenumber_K0"]) ;;;
  let coords := flag_coordinate_system a in
  K_assigned <~
    (if coords =? "cylindrical" then
       let '(p0, _, _) := launch_position a in
       let K_R_launch :=
         - wavenumber_K0 * cos toroidal_launch_angle * cos poloidal_launch_angle in
       let K_zeta_launch :=
         - wavenumber_K0 * sin toroidal_launch_angle * cos poloidal_launch_angle * p0 in
       let K_Z_launch := - wavenumber_K0 * sin poloidal_launch_angle in
       ret (Some (K_R_launch, K_zeta_launch, K_Z_launch))
     else if coords =? "cartesian" then
       let K_R_launch :=
         - wavenumber_K0 * cos toroidal_launch_angle * cos poloidal_launch_angle in
       let K_zeta_launch :=
         - wavenumber_K0 * sin toroidal_launch_angle * cos poloidal_launch_angle in
       let K_Z_launch := - wavenumber_K0 * sin poloidal_launch_angle in
       emit (Print [PStr "K_R_launch"; PReal K_R_launch]) ;;;
       emit (Print [PStr "K_zeta_launch"; PReal K_zeta_launch]) ;;;
       emit (Print [PStr "K_Z_launch"; PReal K_Z_launch]) ;;;
       ret (Some (K_R_launch, K_zeta_launch, K_Z_launch))
     else ret None) ;;
  (* launch_K = np.array([K_R_launch, K_zeta_launch, K_Z_launch]) *)
  launch_K <~ read_local "K_R_launch" K_assigned ;;
  let '(K_R_launch, K_zeta_launch, K_Z_launch) := launch_K in
  let poloidal_rotation_angle := poloidal_launch_angle + PI / 2 in
  emit (Print [PReal poloidal_rotation_angle; PStr "poloidal_rotation_angle"]) ;;;
  diagonal <~ lift (Psi_w_beam_diagonal wavenumber_K0
                      (launch_beam_curvature a) (launch_beam_width a)) ;;
  let Psi_w_beam_launch_cartersian := M2_scale diagonal np_eye2 in
  let rotation_matrix :=
    np_matmul (rotation_matrix_pol poloidal_rotation_angle)
              (rotation_matrix_tor toroidal_launch_angle) in
  let Psi_3D_beam_launch_cartersian := make_array_3x3 Psi_w_beam_launch_cartersian in
  emit (Print [PStr "Psi_3D NEEDS to be changed!"]) ;;;
  '(Psi_3D_beam_launch_cartersian, Psi_3D_lab_launch_cartersian) <~
    (if coords =? "cartesian" then
       '(beam, lab) <~ cartesian_launch_matrix a launch_K rotation_matrix
                         Psi_3D_beam_launch_cartersian ;;
       ret (beam, Some lab)
     else ret (Psi_3D_beam_launch_cartersian, None)) ;;
  if coords =? "cylindrical" then
    let Psi_3D_lab_launch_cartersian :=
      to_lab_frame rotation_matrix Psi_3D_beam_launch_cartersian in
    let '(p0, p1, _) := launch_position a in
    Psi_3D_lab_launch <~ lift (find_Psi_3D_lab Psi_3D_lab_launch_cartersian
                                 p0 p1 K_R_launch K_zeta_launch) ;;
    emit (Print []) ;;;
    launch_beam_propagate a Psi_BC_flag toroidal_launch_angle poloidal_launch_angle
      wavenumber_K0 launch_K Psi_w_beam_launch_cartersian rotation_matrix
      Psi_3D_lab_launch
  else if coords =? "cartesian" then
    Psi_3D_lab_launch <~ read_local "Psi_3D_lab_launch_cartersian"
                           Psi_3D_lab_launch_cartersian ;;
    emit (Print []) ;;;
    launch_beam_propagate a Psi_BC_flag toroidal_launch_angle poloidal_launch_angle
      wavenumber_K0 launch_K Psi_w_beam_launch_cartersian rotation_matrix
      Psi_3D_lab_launch
  else
    emit (Print (invalid_coordinate_system_message coords)) ;;;
    ret ReturnedNone.

Definition launch_beam (a : launch_args) : io launch_output :=
  Psi_BC_flag <~ normalise_Psi_BC_flag (Psi_BC_flag a) ;;
  launch_beam_body a Psi_BC_flag.

End Collaborators.

End Launch.

(** ** Sample collaborators

    The helpers of [scotty.fun_general] and the scipy routines are parameters
    of the model.  The closed examples below run the model with the usual
    coordinate conversions and with scipy answers fixed in advance. *)

Module Sample.

Import Launch.

(** [np.arctan2(y, x)] *)
Definition np_arctan2 (y x : R) : R :=
  if Rlt_dec 0 x then atan (y / x)
  else if Rlt_dec x 0 then
    (if Rle_dec 0 y then atan (y / x) + PI else atan (y / x) - PI)
  else if Rlt_dec 0 y then PI / 2
  else if Rlt_dec y 0 then - (PI / 2)
  else 0.

(** Modelled from the spec: [cartesian_to_cylindrical] of
    [scotty.fun_general] is not part of the sources; the spec names the
    cylindrical coordinates radial, toroidal angle and vertical. *)
Definition cartesian_to_cylindrical (X Y Z : R) : V3 :=
  (sqrt (X * X + Y * Y), np_arctan2 Y X, Z).

(** Modelled from the spec: [toroidal_to_cartesian] of [scotty.fun_general]
    is not part of the sources; a point at distance [r] from the origin in
    the direction given by a poloidal and a toroidal angle. *)
Definition toroidal_to_cartesian (r theta zeta : R) : V3 :=
  (r * cos theta * cos zeta, r * cos theta * sin zeta, r * sin theta).

Definition str_of_float (x : R) : string := "<float>".

(** Modelled from the spec: [cylindrical_to_cartesian] of
    [scotty.fun_general] is not part of the sources; the inverse of the
    conversion above. *)
Definition cylindrical_to_cartesian (R_ zeta Z_ : R) : result V3 :=
  Ok (R_ * cos zeta, R_ * sin zeta, Z_).

(** The answers of [CubicSpline(...).roots()] and of [minimize_scalar],
    fixed in advance.  In the scenarios below the hundred sampled values
    are those of a polynomial of degree at most two in [tau]; the not-a-knot
    cubic spline through such values is that polynomial, so its roots in
    [[0, 1]] are known by hand. *)
Definition spline_roots_are (roots : list R) : list R -> list R -> list R :=
  fun _ _ => roots.
Definition minimize_scalar_is (m : OptimizeResult) : (R -> R) -> OptimizeResult :=
  fun _ => m.

(** [root_scalar(f, x0=x0, x1=x1)], without a bracket and without a
    derivative, is the secant iteration of [scipy.optimize.newton], run with
    [tol=1.48e-8], [rtol=0.0], [maxiter=50] and [disp=False]:
<<
    q0 = func(p0); q1 = func(p1)
    if abs(q1) < abs(q0):
        p0, p1, q0, q1 = p1, p0, q1, q0
    for itr in range(maxiter):
        if q1 == q0:
            p = (p1 + p0) / 2.0
            return p, converged
        else:
            if abs(q1) > abs(q0):
                p = (-q0 / q1 * p1 + p0) / (1 - q0 / q1)
            else:
                p = (-q1 / q0 * p0 + p1) / (1 - q1 / q0)
        if np.isclose(p, p1, rtol=rtol, atol=tol):
            return p, converged
        p0, q0 = p1, q1
        p1 = p
        q1 = func(p1)
    return p, convergence error
>>
    With [disp=False] the case [q1 == q0] only warns.  The two starting
    points of [find_entry_point] differ, so the [ValueError] for [x1 == x0]
    does not arise. *)
Definition secant_tol : R := 1.48e-8.
Definition secant_maxiter : nat := 50.

Fixpoint secant_loop (func : R -> R) (maxiter : nat) (p0 q0 p1 q1 : R)
  : RootResults :=
  match maxiter with
  | O => mkRoot false "convergence error" p1
  | S maxiter =>
      if Req_dec_T q1 q0 then mkRoot true "converged" ((p1 + p0) / 2)
      else
        let p :=
          if Rgt_dec (Rabs q1) (Rabs q0)
          then (- q0 / q1 * p1 + p0) / (1 - q0 / q1)
          else (- q1 / q0 * p0 + p1) / (1 - q1 / q0) in
        if Rle_dec (Rabs (p - p1)) secant_tol then mkRoot true "converged" p
        else secant_loop func maxiter p1 q1 p (func p)
  end.

Definition secant (func : R -> R) (x0 x1 : R) : RootResults :=
  let p0 := x0 in
  let p1 := x1 in
  let q0 := func p0 in
  let q1 := func p1 in
  if Rlt_dec (Rabs q1) (Rabs q0)
  then secant_loop func secant_maxiter p1 q1 p0 q0
  else secant_loop func secant_maxiter p0 q0 p1 q1.

(** The antenna sits at [X = 3], [Z = -3] and looks straight up: in the
    convention of [find_entry_point] the poloidal angle is [-pi/2] and the
    toroidal angle [-pi]. *)
Definition antenna : V3 := (3, 0, -3).
Definition antenna_poloidal : R := - (PI / 2).
Definition antenna_toroidal : R := - PI.

Definition R_grid : list R := [1; 3].
Definition Z_grid : list R := [-5; 5].

(** Flux surfaces that the vertical ray only touches, at [Z = 0]: the flux
    is 1 there and larger everywhere else. *)
Definition grazing_field : MagneticField :=
  mkField R_grid Z_grid (fun _ Z_ => 1 + Z_ * Z_).

(** Flux surfaces that the ray never reaches: the flux is at least 2. *)
Definition distant_field : MagneticField :=
  mkField R_grid Z_grid (fun _ Z_ => 2 + Z_ * Z_).

(** A slab of plasma between [Z = -4] and [Z = 0], with the antenna
    inside it: the flux is 1 on both faces. *)
Definition slab_field : MagneticField :=
  mkField R_grid Z_grid (fun _ Z_ => (Z_ + 2) * (Z_ + 2) / 4).

(** Flux surfaces with a shelf.  Along the ray the flux falls as [1 - Z],
    except that it stays at 1.05 from [Z = -0.05] to [Z = 0.02] and then
    falls steeply to meet [1 - Z] again at [Z = 0.03]; it is continuous,
    nowhere increasing, and passes the value 1 at [Z = 0.02625].  The shelf
    lies between two neighbouring samples of the ray, at [Z = -7/99] and
    [Z = 3/99]. *)
Definition shelf_flux (Z_ : R) : R :=
  Rmax (1 - Z_) (Rmin 1.05 (1.21 - 8 * Z_)).
Definition shelf_field : MagneticField :=
  mkField R_grid Z_grid (fun _ Z_ => shelf_flux Z_).

(** The same with a shelf that rises slightly, by 1/80 per unit of [Z],
    and with a second boundary behind the antenna: below [Z = -3] the flux
    falls as [13 + 3 Z] and passes the value 1 at [Z = -4]. *)
Definition tilted_shelf_flux (Z_ : R) : R :=
  if Rlt_dec Z_ (-3) then 13 + 3 * Z_
  else Rmax (1 - Z_) (Rmin (1.05 + Z_ / 80) (1.21 - 8 * Z_)).

(** The same again, but behind the antenna the flux levels off above 1,
    as [1 + 0.2005 / (4.01 - Z)], and never reaches the boundary value. *)
Definition runaway_flux (Z_ : R) : R :=
  if Rlt_dec Z_ (-3)
  then Rmax (tilted_shelf_flux Z_) (1 + 0.2005 / (4.01 - Z_))
  else tilted_shelf_flux Z_.
Definition runaway_field : MagneticField :=
  mkField R_grid Z_grid (fun _ Z_ => runaway_flux Z_).

Definition no_hamiltonian : Hamiltonian :=
  mkHamiltonian (fun _ _ _ _ _ _ _ => Raise (ExternalError "not available")).

Definition angular_frequency_to_wavenumber (omega : R) : result R :=
  Ok (omega / 299792458).
Definition find_Psi_3D_lab (Psi : M3) (_ _ _ _ : R) : result M3 := Ok Psi.
Definition find_K_lab_Cartesian (K _ : V3) : result V3 := Ok K.
Definition find_K_lab (K _ : V3) : result V3 := Ok K.
Definition apply_discontinuous_BC
    (_ _ : R) (Psi : M3) (K_R K_zeta K_Z : R) (_ : R) (_ : Z) (_ _ : R)
    (_ : MagneticField) (_ : Hamiltonian) (_ : option R) : result (V3 * M3) :=
  Ok ((K_R, K_zeta, K_Z), Psi).
Definition apply_continuous_BC
    (_ _ : R) (Psi : M3) (K_R K_zeta K_Z : R) (_ _ : R)
    (_ : MagneticField) (_ : Hamiltonian) : result (V3 * M3) :=
  Ok ((K_R, K_zeta, K_Z), Psi).

(** Arguments of [launch_beam]: the antenna above with a 5 cm beam of zero
    curvature, as in the hand-computed scenario of the specification. *)
Definition args (Psi_BC_flag : py_flag) (flag_coordinate_system : string)
  : launch_args :=
  mkArgs (-180) (-90) 0.05 0 antenna (500 * 299792458) 1%Z
         grazing_field no_hamiltonian true true Psi_BC_flag
         1 (-1e-4) 1e-4 None flag_coordinate_system.

(** A dispersion provider that answers zero for every name. *)
Definition zero_dict : Evolution.dict := fun _ => Some 0.
Definition zero_hamiltonian : Evolution.Hamiltonian_3D :=
  fun _ _ _ _ _ _ => Ok zero_dict.
Definition zero_hessians (_ : Evolution.dict) : result (M3 * M3 * M3) :=
  Ok (np_zeros_3x3, np_zeros_3x3, np_zeros_3x3).

(** A state vector whose only non-zero slot is slot 9, the real part of
    [Psi_xy]. *)
Definition state_with_Psi_xy : ndarray :=
  Arr1 [0; 0; 0; 0; 0; 0; 0; 0; 0; 1; 0; 0; 0; 0; 0; 0; 0; 0].

(** Tensors for the symmetry check: [Psi], the position-position tensor and
    the K-K tensor are symmetric, the position-K tensor is not. *)
Definition Psi_0 : M3 :=
  mkM3 (mkC 1 2) (mkC 0 1) (mkC 3 0)
       (mkC 0 1) (mkC 2 5) (mkC 1 1)
       (mkC 3 0) (mkC 1 1) (mkC 4 7).
Definition Hpp_0 : M3 :=
  M3_of_reals 1 2 3
              2 4 5
              3 5 6.
Definition Hkp_0 : M3 :=
  M3_of_reals 1 0 2
              7 1 0
              0 3 1.
Definition Hkk_0 : M3 :=
  M3_of_reals 2 1 0
              1 2 1
              0 1 2.

End Sample.

(** ** Further definitions, used by the properties beyond the claims *)

Module More.

Import Launch.

(** The eighteen values that [pack_beam_parameters_3D] hands to [np.array],
    in the order of the call. *)
Definition pack_arguments (q_X q_Y q_Z K_X K_Y K_Z : R) (Psi : M3) : list R :=
  [ q_X; q_Y; q_Z; K_X; K_Y; K_Z;
    np_real (mget Psi i0 i0);
    np_real (mget Psi i1 i1);
    np_real (mget Psi i2 i2);
    np_real (mget Psi i0 i1);
    np_real (mget Psi i0 i2);
    np_real (mget Psi i1 i2);
    np_imag (mget Psi i0 i0);
    np_imag (mget Psi i1 i1);
    np_imag (mget Psi i2 i2);
    np_imag (mget Psi i0 i1);
    np_imag (mget Psi i0 i2);
    np_imag (mget Psi i1 i2) ].

(** [np.eye(3)] *)
Definition np_eye3 : M3 := M3_of_fun (fun i j => if ix_eqb i j then C1 else C0).

(** [R^T . R = I] and [R . R^T = I]. *)
Definition orthogonal (m : M3) : Prop :=
  np_matmul (np_transpose m) m = np_eye3 /\ np_matmul m (np_transpose m) = np_eye3.

(** The third element of a tuple returned by [launch_beam]. *)
Definition output_launch_K (o : launch_output) : option V3 :=
  match o with
  | ReturnedNone => None
  | NoVacuumPropagation _ _ launch_K _ _ => Some launch_K
  | Propagated _ _ launch_K _ _ _ _ _ => Some launch_K
  end.

(** A dictionary with the names that [launch_beam] reads in Cartesian mode
    (upper-case [K] suffixes) and nothing else. *)
Definition launch_style_dict : Evolution.dict :=
  fun key =>
    if existsb (String.eqb key)
         ["dH_dX"; "dH_dY"; "dH_dZ"; "dH_dKX"; "dH_dKY"; "dH_dKZ"]%string
    then Some 1 else None.

(** A dispersion model for the Cartesian launch: it answers
    [launch_style_dict] everywhere. *)
Definition constant_hamiltonian : Hamiltonian :=
  mkHamiltonian (fun _ _ _ _ _ _ _ => Ok launch_style_dict).

(** Arguments of [launch_beam] around the sample antenna. *)
Definition sample_args
    (field : MagneticField) (hamiltonian : Hamiltonian)
    (vacuum_propagation_flag : bool) (launch_beam_width : R)
    (Psi_BC_flag : py_flag) (flag_coordinate_system : string) : launch_args :=
  mkArgs (-180) (-90) launch_beam_width 0 Sample.antenna (500 * 299792458) 1%Z
         field hamiltonian true vacuum_propagation_flag Psi_BC_flag
         1 (-1e-4) 1e-4 None flag_coordinate_system.

(** A field without grid points. *)
Definition empty_field : MagneticField := mkField [] [] (fun _ _ => 0).

(** A full state vector with distinct slots. *)
Definition state_1_to_18 : list R :=
  [1; 2; 3; 4; 5; 6; 7; 8; 9; 10; 11; 12; 13; 14; 15; 16; 17; 18].

End More.

(** * Properties *)

(** ** Complex numbers and matrices *)

Lemma C_eq (a b : C) : np_real a = np_real b -> np_imag a = np_imag b -> a = b.
Proof. destruct a, b; simpl; intros -> ->; reflexivity. Qed.

Lemma C_ring : ring_theory C0 C1 Cadd Cmul Csub Copp (@eq C).
Proof.
  constructor; intros; apply C_eq; simpl; ring.
Qed.

Add Ring C_ring_inst : C_ring.

Lemma Cnorm2_pos (a : C) : a <> C0 -> 0 < Cnorm2 a.
Proof.
  intros Ha. unfold Cnorm2.
  destruct a as [x y]; simpl.
  destruct (Req_dec x 0) as [Hx | Hx].
  - destruct (Req_dec y 0) as [Hy | Hy].
    + subst. exfalso. apply Ha. reflexivity.
    + nra.
  - nra.
Qed.

Lemma Cmul_inv_r (a : C) : a <> C0 -> (a * Cinv a)%C = C1.
Proof.
  intros Ha. pose proof (Cnorm2_pos a Ha) as Hn.
  destruct a as [x y]; unfold Cmul, Cinv, C1, RtoC, Cnorm2 in *; simpl in *.
  f_equal; field; lra.
Qed.

Lemma M3_ext (a b : M3) : (forall i j, mget a i j = mget b i j) -> a = b.
Proof.
  intros H. destruct a, b.
  pose proof (H i0 i0). pose proof (H i0 i1). pose proof (H i0 i2).
  pose proof (H i1 i0). pose proof (H i1 i1). pose proof (H i1 i2).
  pose proof (H i2 i0). pose proof (H i2 i1). pose proof (H i2 i2).
  simpl in *. congruence.
Qed.

Lemma mget_of_fun (f : ix -> ix -> C) (i j : ix) : mget (M3_of_fun f) i j = f i j.
Proof. destruct i, j; reflexivity. Qed.

Lemma C1_neq_C0 : C1 <> C0.
Proof. intros H. apply (f_equal np_real) in H. simpl in H. lra. Qed.

Lemma Cmul_inv_l (a : C) : a <> C0 -> (Cinv a * a)%C = C1.
Proof.
  intros Ha. rewrite <- (Cmul_inv_r a Ha). ring.
Qed.

Lemma C_field : field_theory C0 C1 Cadd Cmul Csub Copp Cdiv Cinv (@eq C).
Proof.
  constructor.
  - exact C_ring.
  - exact C1_neq_C0.
  - intros p q. reflexivity.
  - exact Cmul_inv_l.
Qed.

Add Field C_field_inst : C_field.

Lemma np_imag_neq_C0 (a : C) : np_imag a <> 0 -> a <> C0.
Proof. intros H E. apply H. rewrite E. reflexivity. Qed.

Lemma np_transpose_involutive (m : M3) : np_transpose (np_transpose m) = m.
Proof. destruct m; reflexivity. Qed.

Lemma np_transpose_matmul (a b : M3) :
  np_transpose (np_matmul a b) = np_matmul (np_transpose b) (np_transpose a).
Proof.
  apply M3_ext. intros i j. unfold np_transpose, np_matmul.
  rewrite !mget_of_fun. ring.
Qed.

Lemma np_transpose_Msub (a b : M3) :
  np_transpose (Msub a b) = Msub (np_transpose a) (np_transpose b).
Proof.
  apply M3_ext. intros i j. unfold np_transpose, Msub. rewrite !mget_of_fun. reflexivity.
Qed.

Lemma np_transpose_Mopp (a : M3) : np_transpose (Mopp a) = Mopp (np_transpose a).
Proof.
  apply M3_ext. intros i j. unfold np_transpose, Mopp. rewrite !mget_of_fun. reflexivity.
Qed.

Lemma Msub_swap (a b c : M3) : Msub (Msub a b) c = Msub (Msub a c) b.
Proof.
  apply M3_ext. intros i j. unfold Msub. rewrite !mget_of_fun. ring.
Qed.

Lemma np_matmul_assoc (a b c : M3) :
  np_matmul (np_matmul a b) c = np_matmul a (np_matmul b c).
Proof.
  apply M3_ext. intros i j. unfold np_matmul. rewrite !mget_of_fun. ring.
Qed.

(** ** The state codec and the right-hand side *)

Section EvolutionFacts.

Import Evolution.

Lemma list_of_length_18 (xs : list R) :
  List.length xs = 18%nat ->
  exists x0 x1 x2 x3 x4 x5 x6 x7 x8 x9 x10 x11 x12 x13 x14 x15 x16 x17,
    xs = [x0; x1; x2; x3; x4; x5; x6; x7; x8; x9; x10; x11; x12; x13; x14; x15; x16; x17].
Proof.
  intros H.
  do 18 (destruct xs as [| ? xs]; [discriminate H |]).
  destruct xs; [| discriminate H].
  repeat eexists.
Qed.

(** What the decoder computes from an 18-slot vector: the six coordinates,
    the diagonal and the [xz], [yz] entries mirrored from their slots, and a
    zero in both [xy] positions. *)
Lemma unpack_beam_parameters_3D_18 (xs : list R) :
  List.length xs = 18%nat ->
  let s i := nth i xs 0 in
  unpack_beam_parameters_3D (Arr1 xs) =
    Ok (mkBeam (s 0%nat) (s 1%nat) (s 2%nat) (s 3%nat) (s 4%nat) (s 5%nat)
          (mkM3 (cplx (s 6%nat) (s 12%nat)) C0 (cplx (s 10%nat) (s 16%nat))
                C0 (cplx (s 7%nat) (s 13%nat)) (cplx (s 11%nat) (s 17%nat))
                (cplx (s 10%nat) (s 16%nat)) (cplx (s 11%nat) (s 17%nat))
                (cplx (s 8%nat) (s 14%nat)))).
Proof.
  intros H.
  destruct (list_of_length_18 xs H)
    as (x0 & x1 & x2 & x3 & x4 & x5 & x6 & x7 & x8 & x9 & x10 & x11
        & x12 & x13 & x14 & x15 & x16 & x17 & ->).
  reflexivity.
Qed.

Lemma unpack_beam_parameters_3D_symmetric (xs : list R) (b : beam) :
  unpack_beam_parameters_3D (Arr1 xs) = Ok b -> symmetric (Psi b).
Proof.
  do 18 (destruct xs as [| ? xs]; [intros H; discriminate H |]).
  intros H. injection H as <-. reflexivity.
Qed.

(** C1 (as the code has it): the encoder hands eighteen positional
    arguments to [np.array] and therefore raises [TypeError] on every
    input; no state vector is ever produced, so nothing can be decoded. *)
Theorem pack_beam_parameters_3D_raises (q_X q_Y q_Z K_X K_Y K_Z : R) (Psi : M3) :
  pack_beam_parameters_3D q_X q_Y q_Z K_X K_Y K_Z Psi
    = Raise (TypeError "array() takes from 1 to 2 positional arguments")
  /\ (v <- pack_beam_parameters_3D q_X q_Y q_Z K_X K_Y K_Z Psi ;;
      unpack_beam_parameters_3D v)
     = Raise (TypeError "array() takes from 1 to 2 positional arguments").
Proof. split; reflexivity. Qed.

Section RightHandSide.

Variable hessians_3D : dict -> result (M3 * M3 * M3).

(** C2 (as the code has it): the right-hand side never returns a state
    vector.  Whatever the state, the provider and [tau], the call ends in
    an exception, because its last step is the failing encoder. *)
Theorem beam_evolution_fun_3D_raises
    (tau : R) (beam_parameters : ndarray) (hamiltonian : Hamiltonian_3D) :
  raises (beam_evolution_fun_3D hessians_3D tau beam_parameters hamiltonian).
Proof.
  unfold beam_evolution_fun_3D, raises.
  destruct (unpack_beam_parameters_3D beam_parameters) as [b | e]; simpl;
    [| eexists; reflexivity].
  destruct (hamiltonian _ _ _ _ _ _) as [dH | e]; simpl; [| eexists; reflexivity].
  destruct (hessians_3D dH) as [[[Hpp Hkp] Hkk] | e]; simpl; [| eexists; reflexivity].
  repeat (match goal with
          | |- context [getitem ?d ?k] =>
              destruct (getitem d k); simpl; [| eexists; reflexivity]
          end).
  eexists; reflexivity.
Qed.

(** With an 18-slot state and a provider that answers, the exception is
    the encoder's [TypeError]. *)
Lemma beam_evolution_fun_3D_TypeError
    (tau : R) (xs : list R) (hamiltonian : Hamiltonian_3D) (b : beam)
    (dH : dict) (H3 : M3 * M3 * M3) :
  unpack_beam_parameters_3D (Arr1 xs) = Ok b ->
  hamiltonian (q_X b) (q_Y b) (q_Z b) (K_X b) (K_Y b) (K_Z b) = Ok dH ->
  hessians_3D dH = Ok H3 ->
  (forall k, In k ["dH_dX"; "dH_dY"; "dH_dZ"; "dH_dKx"; "dH_dKy"; "dH_dKz"]%string ->
             dH k <> None) ->
  beam_evolution_fun_3D hessians_3D tau (Arr1 xs) hamiltonian
    = Raise (TypeError "array() takes from 1 to 2 positional arguments").
Proof.
  intros Hu Hd Hh Hk. unfold beam_evolution_fun_3D.
  rewrite Hu. simpl. rewrite Hd. simpl. rewrite Hh. simpl.
  destruct H3 as [[Hpp Hkp] Hkk].
  unfold getitem.
  repeat (match goal with
          | |- context [dH ?k] =>
              let E := fresh "E" in
              destruct (dH k) eqn:E;
              [ simpl | exfalso; apply (Hk k); [simpl; tauto | exact E] ]
          end).
  reflexivity.
Qed.

End RightHandSide.

(** C4: the Riccati right-hand side is symmetric whenever [Psi], the
    position-position tensor and the K-K tensor are; the K-position tensor
    is the transpose of the position-K tensor by construction. *)
Theorem d_Psi_d_tau_symmetric (Psi grad_grad_H gradK_grad_H gradK_gradK_H : M3) :
  symmetric Psi -> symmetric grad_grad_H -> symmetric gradK_gradK_H ->
  symmetric (d_Psi_d_tau Psi grad_grad_H gradK_grad_H gradK_gradK_H).
Proof.
  unfold symmetric, d_Psi_d_tau. intros HPsi Hpp Hkk.
  rewrite !np_transpose_Msub, np_transpose_Mopp, !np_transpose_matmul.
  rewrite np_transpose_involutive, HPsi, Hpp, Hkk.
  rewrite (Msub_swap (Mopp grad_grad_H)).
  rewrite np_matmul_assoc. reflexivity.
Qed.

End EvolutionFacts.

(** ** The launch *)

Section LaunchFacts.

Import Launch.
Open Scope string_scope.

Variable toroidal_to_cartesian : R -> R -> R -> V3.
Variable cartesian_to_cylindrical : R -> R -> R -> V3.
Variable CubicSpline_roots : list R -> list R -> list R.
Variable minimize_scalar : (R -> R) -> OptimizeResult.
Variable root_scalar : (R -> R) -> R -> R -> RootResults.
Variable str_of_float : R -> string.
Variable angular_frequency_to_wavenumber : R -> result R.
Variable find_Psi_3D_lab : M3 -> R -> R -> R -> R -> result M3.
Variable find_K_lab_Cartesian : V3 -> V3 -> result V3.
Variable find_K_lab : V3 -> V3 -> result V3.
Variable cylindrical_to_cartesian : R -> R -> R -> result V3.
Variable apply_discontinuous_BC :
  R -> R -> M3 -> R -> R -> R -> R -> Z -> R -> R ->
  MagneticField -> Hamiltonian -> option R -> result (V3 * M3).
Variable apply_continuous_BC :
  R -> R -> M3 -> R -> R -> R -> R -> R ->
  MagneticField -> Hamiltonian -> result (V3 * M3).

Local Abbreviation step_array := (Launch.step_array toroidal_to_cartesian).
Local Abbreviation to_cylindrical := (Launch.to_cylindrical cartesian_to_cylindrical).
Local Abbreviation flux_along_line :=
  (Launch.poloidal_flux_boundary_along_line cartesian_to_cylindrical).
Local Abbreviation miss_message := (Launch.miss_message str_of_float).
Local Abbreviation find_entry_point :=
  (Launch.find_entry_point toroidal_to_cartesian cartesian_to_cylindrical
     CubicSpline_roots minimize_scalar root_scalar str_of_float).
Local Abbreviation launch_beam_propagate :=
  (Launch.launch_beam_propagate toroidal_to_cartesian cartesian_to_cylindrical
     CubicSpline_roots minimize_scalar root_scalar str_of_float
     find_Psi_3D_lab find_K_lab_Cartesian find_K_lab cylindrical_to_cartesian
     apply_discontinuous_BC apply_continuous_BC).
Local Abbreviation launch_beam_body :=
  (Launch.launch_beam_body toroidal_to_cartesian cartesian_to_cylindrical
     CubicSpline_roots minimize_scalar root_scalar str_of_float
     angular_frequency_to_wavenumber
     find_Psi_3D_lab find_K_lab_Cartesian find_K_lab cylindrical_to_cartesian
     apply_discontinuous_BC apply_continuous_BC).
Local Abbreviation launch_beam :=
  (Launch.launch_beam toroidal_to_cartesian cartesian_to_cylindrical
     CubicSpline_roots minimize_scalar root_scalar str_of_float
     angular_frequency_to_wavenumber
     find_Psi_3D_lab find_K_lab_Cartesian find_K_lab cylindrical_to_cartesian
     apply_discontinuous_BC apply_continuous_BC).

(** *** The event monad *)

Lemma iobind_Ok_inv {A B : Type} (m : io A) (k : A -> io B) (log : list event) (b : B) :
  iobind m k = (log, Ok b) ->
  exists l1 a l2, m = (l1, Ok a) /\ k a = (l2, Ok b) /\ log = (l1 ++ l2)%list.
Proof.
  destruct m as [l1 [a | e]]; simpl; [| discriminate].
  destruct (k a) as [l2 r] eqn:E. intros H. injection H as <- ->.
  exists l1, a, l2. auto.
Qed.

Lemma lift_Ok_inv {A : Type} (m : result A) (log : list event) (a : A) :
  lift m = (log, Ok a) -> m = Ok a /\ log = [].
Proof. unfold lift. intros H. injection H as <- ->. auto. Qed.

(** *** Validation of the flags *)

Lemma eqb_neq_false (s t : string) : s <> t -> (s =? t) = false.
Proof. intros H. apply String.eqb_neq. exact H. Qed.

(** C7: [True] becomes ['continuous'] and [False] becomes [None], each
    with one deprecation warning; the three canonical values pass
    unchanged; the normalisation is the first step of [launch_beam]; and any
    other string makes [launch_beam] raise a [ValueError] naming it, with
    nothing logged and no collaborator consulted. *)
Theorem Psi_BC_flag_normalisation :
  normalise_Psi_BC_flag (PyBool true)
    = ([ Warn "DeprecationWarning" deprecation_message;
         Print [PStr "Setting Psi_BC_flag = 'continuous' for backward compatibility"] ],
       Ok (PyStr "continuous"))
  /\ normalise_Psi_BC_flag (PyBool false)
    = ([ Warn "DeprecationWarning" deprecation_message;
         Print [PStr "Setting Psi_BC_flag = None for backward compatibility "] ],
       Ok PyNone)
  /\ (forall f, In f [PyNone; PyStr "continuous"; PyStr "discontinuous"] ->
                normalise_Psi_BC_flag f = ([], Ok f))
  /\ (forall a, launch_beam a
                = iobind (normalise_Psi_BC_flag (Psi_BC_flag a)) (launch_beam_body a))
  /\ (forall a s,
        Psi_BC_flag a = PyStr s -> s <> "continuous" -> s <> "discontinuous" ->
        launch_beam a
        = ([], Raise (ValueError
                 ("Unexpected value for `Psi_BC_flag` (" ++ s
                  ++ "), expected one of None, 'continuous, or 'discontinuous'")))).
Proof.
  repeat split.
  - intros f [<- | [<- | [<- | []]]]; reflexivity.
  - intros a s Hf Hc Hd. unfold Launch.launch_beam. rewrite Hf.
    unfold normalise_Psi_BC_flag.
    rewrite (eqb_neq_false _ _ Hc), (eqb_neq_false _ _ Hd). reflexivity.
Qed.

(** C6 (as the code has it): with a coordinate flag that is neither
    ['cylindrical'] nor ['cartesian'], and a valid [Psi_BC_flag], the angles
    are converted, the wavenumber is computed and printed, and the read of
    the never-assigned [K_R_launch] raises [UnboundLocalError]; the message
    that names the flag and the accepted values is not reached. *)
Theorem launch_beam_unknown_coordinate_system
    (a : launch_args) (log : list event) (flag : py_flag) (K0 : R) :
  flag_coordinate_system a <> "cylindrical" ->
  flag_coordinate_system a <> "cartesian" ->
  normalise_Psi_BC_flag (Psi_BC_flag a) = (log, Ok flag) ->
  angular_frequency_to_wavenumber (launch_angular_frequency a) = Ok K0 ->
  launch_beam a
  = ((log ++ [Print [PReal K0; PStr "wavenumber_K0"]])%list,
     Raise (UnboundLocalError "K_R_launch")).
Proof.
  intros Hcyl Hcart Hflag HK0.
  unfold Launch.launch_beam, Launch.launch_beam_body.
  rewrite Hflag, HK0.
  rewrite (eqb_neq_false _ _ Hcyl), (eqb_neq_false _ _ Hcart).
  reflexivity.
Qed.

(** *** The entry point *)

(** Without a root of the spline the function raises the miss error. *)
Lemma find_entry_point_no_root
    (launch_position : V3) (pol tor enter : R) (field : MagneticField)
    (boundary_adjust L : R) :
  max_length launch_position field = Ok L ->
  let step := step_array L pol tor in
  let f := flux_along_line launch_position step field enter in
  CubicSpline_roots (np_linspace01 100) (map f (np_linspace01 100)) = [] ->
  let minimum := minimize_scalar f in
  let closest := to_cylindrical (beam_line launch_position step (opt_x minimum)) in
  find_entry_point launch_position pol tor enter field boundary_adjust
  = Raise (RuntimeError
      (miss_message (fst (fst closest)) (snd (fst closest)) (snd closest)
         (opt_fun minimum))).
Proof.
  intros HL step f Hroots minimum closest.
  subst closest minimum f step.
  unfold Launch.find_entry_point. rewrite HL. cbv beta iota zeta delta [bind].
  rewrite Hroots.
  destruct (to_cylindrical _) as [[Rm zm] Zm]. reflexivity.
Qed.

(** C5: when the spline through the hundred samples has no root,
    [find_entry_point] does not return a point: it takes the minimiser that
    [minimize_scalar] finds for the signed flux distance along the line,
    converts that point of the line to cylindrical coordinates, and raises a
    [RuntimeError] whose message spells out these three coordinates and the
    flux distance at the minimum. *)
Theorem find_entry_point_beam_misses
    (launch_position : V3) (pol tor enter : R) (field : MagneticField)
    (boundary_adjust L : R) :
  max_length launch_position field = Ok L ->
  let step := step_array L pol tor in
  let f := flux_along_line launch_position step field enter in
  CubicSpline_roots (np_linspace01 100) (map f (np_linspace01 100)) = [] ->
  let minimum := minimize_scalar f in
  let closest := to_cylindrical (beam_line launch_position step (opt_x minimum)) in
  let R_miss := fst (fst closest) in
  let zeta_miss := snd (fst closest) in
  let Z_miss := snd closest in
  find_entry_point launch_position pol tor enter field boundary_adjust
  = Raise (RuntimeError
      ("Beam does not hit plasma. Closest point is at "
       ++ ("(R=" ++ str_of_float R_miss ++ ", zeta=" ++ str_of_float zeta_miss
           ++ ", Z=" ++ str_of_float Z_miss ++ ")")
       ++ ", " ++ "distance in poloidal flux to boundary="
       ++ str_of_float (opt_fun minimum)))
  /\ ~ returns (find_entry_point launch_position pol tor enter field boundary_adjust).
Proof.
  intros HL step f Hroots minimum closest R_miss zeta_miss Z_miss.
  pose proof (find_entry_point_no_root launch_position pol tor enter field
                boundary_adjust L HL Hroots) as Hmiss.
  cbv zeta in Hmiss. split.
  - exact Hmiss.
  - intros [p Hp]. rewrite Hmiss in Hp. discriminate Hp.
Qed.

(** The value returned once a root was found and refined: the refined
    parameter, moved forward once by [boundary_adjust] when the flux there is
    above the target. *)
Lemma find_entry_point_found
    (launch_position : V3) (pol tor enter : R) (field : MagneticField)
    (boundary_adjust L root0 : R) (rest : list R) :
  max_length launch_position field = Ok L ->
  let step := step_array L pol tor in
  let f := flux_along_line launch_position step field enter in
  CubicSpline_roots (np_linspace01 100) (map f (np_linspace01 100)) = root0 :: rest ->
  let boundary := root_scalar f root0 (root0 + 1e-3) in
  converged boundary = true ->
  find_entry_point launch_position pol tor enter field boundary_adjust
  = Ok (to_cylindrical (beam_line launch_position step
          (if Rgt_dec (f (root boundary) + enter) enter
           then root boundary + boundary_adjust
           else root boundary))).
Proof.
  intros HL step f Hroots boundary Hconv.
  subst boundary f step.
  unfold Launch.find_entry_point. rewrite HL. cbv beta iota zeta delta [bind].
  rewrite Hroots, Hconv. simpl negb. cbv iota.
  set (boundary := root_scalar _ _ _) in *.
  unfold Launch.poloidal_flux_boundary_along_line.
  destruct (to_cylindrical (beam_line launch_position _ (root boundary)))
    as [[Rb zb] Zb].
  replace (poloidal_flux field Rb Zb - enter + enter) with (poloidal_flux field Rb Zb)
    by ring.
  reflexivity.
Qed.


(** *** Vacuum propagation of the beam matrix *)

Lemma Cmul_integral (a b : C) : (a * b)%C = C0 -> a = C0 \/ b = C0.
Proof.
  intros H.
  destruct (Req_dec (np_real a) 0) as [Hr | Hr];
    [destruct (Req_dec (np_imag a) 0) as [Hi | Hi] |].
  - left. apply C_eq; assumption.
  - right. assert (Ha : a <> C0) by (apply np_imag_neq_C0; exact Hi).
    replace b with (Cinv a * (a * b))%C by (field; exact Ha).
    rewrite H. ring.
  - right. assert (Ha : a <> C0).
    { intros E. apply Hr. rewrite E. reflexivity. }
    replace b with (Cinv a * (a * b))%C by (field; exact Ha).
    rewrite H. ring.
Qed.

Lemma Csquare_neq_C0 (a : C) : a <> C0 -> (a * a)%C <> C0.
Proof. intros Ha H. destruct (Cmul_integral a a H); contradiction. Qed.

Lemma find_inverse_2D_correct (m : M2) :
  det2 m <> C0 ->
  M2_mul (find_inverse_2D m) m = np_eye2 /\ M2_mul m (find_inverse_2D m) = np_eye2.
Proof.
  unfold det2. intros Hdet.
  destruct m as [a b c d]. unfold M2_mul, find_inverse_2D, np_eye2. simpl in *.
  split; f_equal; field; exact Hdet.
Qed.

Lemma pow_minus_2_Ok (x : R) : x <> 0 -> pow_minus_2 x = Ok (/ (x * x)).
Proof.
  intros Hx. unfold pow_minus_2. destruct (Req_dec_T x 0); [contradiction | reflexivity].
Qed.

(** The launch value [K0 * curvature + 2j / width^2] has a positive
    imaginary part, hence is not zero. *)
Lemma launch_diagonal_neq_C0 (K0 curvature width : R) :
  width <> 0 ->
  (RtoC (K0 * curvature) + mkC 0 2 * RtoC (/ (width * width)))%C <> C0.
Proof.
  intros Hw. apply np_imag_neq_C0. simpl.
  assert (0 < / (width * width)) by (apply Rinv_0_lt_compat; nra).
  lra.
Qed.

(** Adding a real number to the inverse of a number with non-zero imaginary
    part leaves a number with non-zero imaginary part. *)
Lemma real_plus_Cinv_neq_C0 (t : R) (a : C) :
  np_imag a <> 0 -> (RtoC t + Cinv a)%C <> C0.
Proof.
  intros Hi. apply np_imag_neq_C0. simpl.
  assert (Hn : 0 < Cnorm2 a) by (apply Cnorm2_pos, np_imag_neq_C0, Hi).
  intros E. apply Hi.
  assert (E' : - np_imag a / Cnorm2 a = 0) by lra.
  unfold Rdiv in E'. apply Rmult_integral in E'. destruct E' as [E' | E'].
  - lra.
  - exfalso. apply (Rinv_neq_0_compat (Cnorm2 a)); lra.
Qed.

Ltac io_inversion H x Hx :=
  let l1 := fresh "l" in
  let l2 := fresh "l" in
  let Hl := fresh "Hl" in
  apply iobind_Ok_inv in H; destruct H as (l1 & x & l2 & Hx & H & Hl).

Tactic Notation "io_inv" hyp(H) ident(x) ident(Hx) := io_inversion H x Hx.

Lemma launch_beam_propagate_inv
    (a : launch_args) (flag : py_flag) (tor pol K0 : R) (K_launch : V3)
    (launch : M2) (rotation_matrix Psi_launch : M3) (log : list event)
    (K_i pos launch_K : V3) (Psi_i Psi_l Psi_e Psi_ec : M3) (d : R) :
  launch_beam_propagate a flag tor pol K0 K_launch launch rotation_matrix Psi_launch
    = (log, Ok (Propagated K_i pos launch_K Psi_i Psi_l Psi_e Psi_ec d)) ->
  vacuum_propagation_flag a = true
  /\ find_entry_point (launch_position a) pol tor (poloidal_flux_enter a) (field a)
       boundary_adjust_default = Ok pos
  /\ d = distance_from_launch_to_entry (launch_position a) pos
  /\ Psi_ec = to_lab_frame rotation_matrix (Psi_3D_beam_entry_cartersian d K0 launch).
Proof.
  unfold Launch.launch_beam_propagate.
  destruct K_launch as [[KR Kzeta] KZ].
  destruct (vacuum_propagation_flag a); simpl negb; cbv iota; [| discriminate].
  intros H.
  io_inv H entry Hentry. apply lift_Ok_inv in Hentry. destruct Hentry as [Hentry _].
  cbv zeta in H.
  io_inv H Kc HKc. destruct entry as [[e0 e1] e2].
  io_inv H ec Hec. io_inv H Ke HKe. destruct Ke as [[KRe Kze] KZe].
  io_inv H Pe HPe. io_inv H KP HKP. destruct KP as [Ki Pi].
  unfold ret in H. inversion H; subst.
  repeat split; assumption || reflexivity.
Qed.

Lemma launch_beam_Propagated_inv
    (a : launch_args) (log : list event)
    (K_i pos launch_K : V3) (Psi_i Psi_l Psi_e Psi_ec : M3) (d : R) :
  launch_beam a = (log, Ok (Propagated K_i pos launch_K Psi_i Psi_l Psi_e Psi_ec d)) ->
  exists flag K0 psi K_launch Psi_launch log',
    angular_frequency_to_wavenumber (launch_angular_frequency a) = Ok K0
    /\ Psi_w_beam_diagonal K0 (launch_beam_curvature a) (launch_beam_width a) = Ok psi
    /\ launch_beam_propagate a flag
         (np_deg2rad (toroidal_launch_angle_Torbeam a))
         (np_deg2rad (poloidal_launch_angle_Torbeam a))
         K0 K_launch (M2_scale psi np_eye2) (launch_rotation_matrix a) Psi_launch
       = (log', Ok (Propagated K_i pos launch_K Psi_i Psi_l Psi_e Psi_ec d)).
Proof.
  unfold Launch.launch_beam. intros H.
  io_inv H flag' Hflag. unfold Launch.launch_beam_body in H.
  io_inv H K0 HK0. apply lift_Ok_inv in HK0. destruct HK0 as [HK0 _].
  io_inv H u Hu. cbv zeta in H.
  io_inv H K_assigned HK. io_inv H K_launch HKl. destruct K_launch as [[KR Kz] KZ].
  io_inv H u1 Hu1. io_inv H psi Hpsi. apply lift_Ok_inv in Hpsi. destruct Hpsi as [Hpsi _].
  io_inv H u2 Hu2. io_inv H mats Hmats. destruct mats as [beam lab].
  exists flag', K0, psi, (KR, Kz, KZ).
  destruct (flag_coordinate_system a =? "cylindrical").
  - destruct (launch_position a) as [[p0 p1] p2] eqn:Hp.
    io_inv H Pl HPl. io_inv H u3 Hu3.
    exists Pl. eexists. repeat split; [exact HK0 | exact Hpsi | exact H].
  - destruct (flag_coordinate_system a =? "cartesian").
    + io_inv H Pl HPl. io_inv H u3 Hu3.
      exists Pl. eexists. repeat split; [exact HK0 | exact Hpsi | exact H].
    + io_inv H u3 Hu3. discriminate H.
Qed.

Lemma det2_scaled_eye (z : C) : z <> C0 -> det2 (M2_scale z np_eye2) <> C0.
Proof.
  intros Hz. unfold det2, M2_scale, np_eye2. simpl.
  replace (z * C1 * (z * C1) - z * C0 * (z * C0))%C with (z * z)%C by ring.
  apply Csquare_neq_C0. exact Hz.
Qed.

(** The matrix to be inverted at the entry point is [s * I] with
    [s = distance / K0 + 1 / psi]. *)
Lemma spread_matrix (t : R) (psi : C) :
  psi <> C0 ->
  M2_add (M2_scale (RtoC t) np_eye2) (find_inverse_2D (M2_scale psi np_eye2))
  = mkM2 (RtoC t + Cinv psi) C0 C0 (RtoC t + Cinv psi).
Proof.
  intros Hpsi. unfold M2_add, M2_scale, find_inverse_2D, np_eye2. simpl.
  f_equal; field; exact Hpsi.
Qed.

(** C8: in a run of [launch_beam] that propagates through vacuum, the
    2x2 transverse matrix at the entry point is the inverse of
    [(d / K0) * I + L^-1], where [L = (K0 * curvature + 2j / width^2) * I] is
    the launch matrix, [L^-1] its inverse and [d] the computed distance from
    launch to entry; it is embedded with a zero third row and column and
    only then rotated into the lab frame. *)
Theorem vacuum_diffraction_closed_form
    (a : launch_args) (log : list event)
    (K_i pos launch_K : V3) (Psi_i Psi_l Psi_e Psi_ec : M3) (d K0 : R) :
  launch_beam a = (log, Ok (Propagated K_i pos launch_K Psi_i Psi_l Psi_e Psi_ec d)) ->
  angular_frequency_to_wavenumber (launch_angular_frequency a) = Ok K0 ->
  0 < launch_beam_width a -> 0 < K0 ->
  let w := launch_beam_width a in
  let launch :=
    M2_scale (RtoC (K0 * launch_beam_curvature a) + mkC 0 2 * RtoC (/ (w * w)))%C
             np_eye2 in
  let spread := M2_add (M2_scale (RtoC (d / K0)) np_eye2) (find_inverse_2D launch) in
  let entry := find_inverse_2D spread in
  vacuum_propagation_flag a = true
  /\ d = distance_from_launch_to_entry (launch_position a) pos
  /\ M2_mul (find_inverse_2D launch) launch = np_eye2
  /\ M2_mul launch (find_inverse_2D launch) = np_eye2
  /\ M2_mul entry spread = np_eye2
  /\ M2_mul spread entry = np_eye2
  /\ Psi_3D_beam_entry_cartersian d K0 launch = make_array_3x3 entry
  /\ (forall i, mget (make_array_3x3 entry) i i2 = C0
                /\ mget (make_array_3x3 entry) i2 i = C0)
  /\ Psi_ec = to_lab_frame (launch_rotation_matrix a) (make_array_3x3 entry).
Proof.
  intros Hrun HK0 Hw HK0pos w launch spread entry.
  destruct (launch_beam_Propagated_inv _ _ _ _ _ _ _ _ _ _ Hrun)
    as (flag' & K0' & psi & K_launch & Psi_launch & log' & HK0' & Hpsi & Hprop).
  rewrite HK0 in HK0'. injection HK0' as <-.
  unfold Psi_w_beam_diagonal in Hpsi.
  rewrite (pow_minus_2_Ok (launch_beam_width a)) in Hpsi by lra.
  simpl in Hpsi. injection Hpsi as <-.
  destruct (launch_beam_propagate_inv _ _ _ _ _ _ _ _ _ _ _ _ _ _ _ _ _ _ Hprop)
    as (Hvac & Hentry & Hd & Hec).
  assert (Hw0 : launch_beam_width a <> 0) by lra.
  pose proof (launch_diagonal_neq_C0 K0 (launch_beam_curvature a) _ Hw0) as Hpsi.
  fold w in Hpsi.
  assert (Himag : np_imag (RtoC (K0 * launch_beam_curvature a)
                           + mkC 0 2 * RtoC (/ (w * w)))%C <> 0).
  { simpl. assert (0 < / (w * w)) by (apply Rinv_0_lt_compat; unfold w; nra). lra. }
  destruct (find_inverse_2D_correct launch (det2_scaled_eye _ Hpsi)) as [Hl Hr].
  assert (Hdet : det2 spread <> C0).
  { unfold spread, launch. rewrite (spread_matrix _ _ Hpsi).
    unfold det2. simpl.
    match goal with
    | |- (?s * ?s - C0 * C0)%C <> C0 =>
        replace (s * s - C0 * C0)%C with (s * s)%C by ring
    end.
    apply Csquare_neq_C0, real_plus_Cinv_neq_C0, Himag. }
  destruct (find_inverse_2D_correct spread Hdet) as [Hl' Hr'].
  repeat split; try assumption.
  - destruct i; reflexivity.
  - destruct i; reflexivity.
Qed.

(** A complete run in cylindrical mode without boundary conditions: when
    every collaborator answers, [launch_beam] returns the tuple of line
    397. *)
Lemma launch_beam_cylindrical_run
    (a : launch_args) (K0 p0 p1 p2 : R) (Psi_launch Psi_entry : M3)
    (pos K_cart pos_cart K_entry : V3) (psi : C) :
  Psi_BC_flag a = PyNone ->
  flag_coordinate_system a = "cylindrical" ->
  vacuum_propagation_flag a = true ->
  launch_position a = (p0, p1, p2) ->
  angular_frequency_to_wavenumber (launch_angular_frequency a) = Ok K0 ->
  Psi_w_beam_diagonal K0 (launch_beam_curvature a) (launch_beam_width a) = Ok psi ->
  let tor := np_deg2rad (toroidal_launch_angle_Torbeam a) in
  let pol := np_deg2rad (poloidal_launch_angle_Torbeam a) in
  let K_R := - K0 * cos tor * cos pol in
  let K_zeta := - K0 * sin tor * cos pol * p0 in
  let K_Z := - K0 * sin pol in
  let launch := M2_scale psi np_eye2 in
  let rot := launch_rotation_matrix a in
  find_Psi_3D_lab (to_lab_frame rot (make_array_3x3 launch)) p0 p1 K_R K_zeta
    = Ok Psi_launch ->
  find_entry_point (p0, p1, p2) pol tor (poloidal_flux_enter a) (field a)
    boundary_adjust_default = Ok pos ->
  find_K_lab_Cartesian (K_R, K_zeta, K_Z) (p0, p1, p2) = Ok K_cart ->
  cylindrical_to_cartesian (fst (fst pos)) (snd (fst pos)) (snd pos) = Ok pos_cart ->
  find_K_lab K_cart pos_cart = Ok K_entry ->
  let d := distance_from_launch_to_entry (p0, p1, p2) pos in
  let Psi_ec := to_lab_frame rot (Psi_3D_beam_entry_cartersian d K0 launch) in
  find_Psi_3D_lab Psi_ec (fst (fst pos)) (snd (fst pos))
    (fst (fst K_entry)) (snd (fst K_entry)) = Ok Psi_entry ->
  launch_beam a
  = ([ Print [PReal K0; PStr "wavenumber_K0"];
       Print [PReal (pol + PI / 2); PStr "poloidal_rotation_angle"];
       Print [PStr "Psi_3D NEEDS to be changed!"];
       Print [] ],
     Ok (Propagated K_entry pos (K_R, K_zeta, K_Z)
           Psi_entry Psi_launch Psi_entry Psi_ec d)).
Proof.
  intros HBC Hcoords Hvac Hpos HK0 Hpsi tor pol K_R K_zeta K_Z launch rot
         HPl Hentry HKc Hpc HKe d Psi_ec HPe.
  unfold Launch.launch_beam, Launch.launch_beam_body.
  rewrite HBC, HK0, Hcoords, Hpos.
  change ("cylindrical" =? "cylindrical") with true.
  change ("cylindrical" =? "cartesian") with false.
  cbv beta iota zeta
      delta [normalise_Psi_BC_flag iobind lift emit ret read_local app fst snd].
  fold tor pol. fold K_R K_zeta.
  rewrite Hpsi.
  cbv beta iota zeta delta [iobind lift emit ret read_local app fst snd].
  unfold launch, rot, launch_rotation_matrix in HPl. fold tor pol in HPl.
  rewrite HPl.
  unfold Launch.launch_beam_propagate.
  rewrite Hvac, Hpos. simpl negb.
  cbv beta iota zeta delta [iobind lift emit ret app].
  rewrite Hentry. destruct pos as [[e0 e1] e2]. simpl fst in *. simpl snd in *.
  cbv beta iota zeta.
  fold K_Z. rewrite HKc. cbv beta iota zeta. rewrite Hpc. cbv beta iota zeta.
  rewrite HKe. destruct K_entry as [[KRe Kze] KZe]. simpl fst in *. simpl snd in *.
  cbv beta iota zeta.
  unfold Psi_ec, d, launch, rot, launch_rotation_matrix in HPe. fold tor pol in HPe.
  rewrite HPe.
  reflexivity.
Qed.

End LaunchFacts.

(** ** The model at concrete inputs *)

Section CodecExamples.

Import Evolution.

(** C3 (as the code has it): decoding a state vector whose slot 9 holds 1
    gives a symmetric matrix, but both [xy] entries are zero instead of
    [slot9 + 1j * slot15]: line 65 copies the untouched entry [1,0] over the
    entry [0,1] that line 62 had just filled. *)
Theorem unpack_beam_parameters_3D_drops_Psi_xy :
  exists b,
    unpack_beam_parameters_3D Sample.state_with_Psi_xy = Ok b
    /\ symmetric (Psi b)
    /\ mget (Psi b) i0 i1 = C0
    /\ mget (Psi b) i1 i0 = C0
    /\ mget (Psi b) i0 i1 <> cplx 1 0.
Proof.
  eexists. split; [reflexivity |].
  split; [reflexivity |]. split; [reflexivity |]. split; [reflexivity |].
  simpl. intros H. apply (f_equal np_real) in H. simpl in H. lra.
Qed.

Lemma d_Psi_d_tau_symmetric_witness :
  symmetric (d_Psi_d_tau Sample.Psi_0 Sample.Hpp_0 Sample.Hkp_0 Sample.Hkk_0).
Proof.
  apply d_Psi_d_tau_symmetric; reflexivity.
Defined.

(** The right-hand side at the zero state with a provider that answers
    zero everywhere. *)
Example beam_evolution_fun_3D_at_zero (tau : R) :
  beam_evolution_fun_3D Sample.zero_hessians tau
    (Arr1 (repeat 0 18)) Sample.zero_hamiltonian
  = Raise (TypeError "array() takes from 1 to 2 positional arguments").
Proof. reflexivity. Qed.

End CodecExamples.

Section LaunchExamples.

Import Launch.
Open Scope string_scope.

Local Abbreviation sample_find_entry_point roots minimum :=
  (Launch.find_entry_point Sample.toroidal_to_cartesian Sample.cartesian_to_cylindrical
     (Sample.spline_roots_are roots) (Sample.minimize_scalar_is minimum)
     Sample.secant Sample.str_of_float).

Local Abbreviation sample_launch_beam :=
  (Launch.launch_beam Sample.toroidal_to_cartesian Sample.cartesian_to_cylindrical
     (Sample.spline_roots_are [0.3]) (Sample.minimize_scalar_is (mkOptimize 0.3 0))
     Sample.secant
     Sample.str_of_float Sample.angular_frequency_to_wavenumber
     Sample.find_Psi_3D_lab Sample.find_K_lab_Cartesian Sample.find_K_lab
     Sample.cylindrical_to_cartesian
     Sample.apply_discontinuous_BC Sample.apply_continuous_BC).

(** The signed flux distance along the sample ray, and the cylindrical
    image of the point of the ray at parameter [tau]. *)
Local Abbreviation sample_flux_distance field :=
  (Launch.poloidal_flux_boundary_along_line Sample.cartesian_to_cylindrical
     Sample.antenna
     (Launch.step_array Sample.toroidal_to_cartesian 10
        Sample.antenna_poloidal Sample.antenna_toroidal)
     field 1).

Local Abbreviation sample_point tau :=
  (Launch.to_cylindrical Sample.cartesian_to_cylindrical
     (beam_line Sample.antenna
        (Launch.step_array Sample.toroidal_to_cartesian 10
           Sample.antenna_poloidal Sample.antenna_toroidal) tau)).

Lemma sample_max_length (flux : R -> R -> R) :
  max_length Sample.antenna (mkField Sample.R_grid Sample.Z_grid flux) = Ok 10.
Proof.
  unfold max_length, Sample.antenna, Sample.R_grid, Sample.Z_grid, np_max, np_hypot.
  simpl. f_equal.
  rewrite (Rmax_right 1 3) by lra. rewrite (Rmax_right (-5) 5) by lra.
  rewrite (Rabs_pos_eq 3) by lra.
  replace (Rabs (-3)) with 3 by (rewrite Rabs_left; lra).
  replace ((3 + 3) * (3 + 3) + (3 + 5) * (3 + 5)) with (10 * 10) by lra.
  apply sqrt_square. lra.
Qed.

(** Along the vertical sample ray the height is [-3 + tau * L]. *)
Lemma sample_entry_height (L tau : R) :
  snd (Launch.to_cylindrical Sample.cartesian_to_cylindrical
         (beam_line Sample.antenna
            (Launch.step_array Sample.toroidal_to_cartesian L
               Sample.antenna_poloidal Sample.antenna_toroidal) tau))
  = -3 + tau * L.
Proof.
  unfold Launch.to_cylindrical, beam_line, Launch.step_array,
    Sample.toroidal_to_cartesian, Sample.cartesian_to_cylindrical,
    Sample.antenna, Sample.antenna_poloidal, V3_add, V3_scale.
  simpl. rewrite Ropp_involutive, sin_PI2. ring.
Qed.

(** For a flux that depends on the height only, the signed distance along
    the sample ray is the flux at the height [-3 + tau * L], less the
    target. *)
Lemma sample_flux_along_line (g : R -> R) (L enter tau : R) :
  Launch.poloidal_flux_boundary_along_line Sample.cartesian_to_cylindrical
    Sample.antenna
    (Launch.step_array Sample.toroidal_to_cartesian L
       Sample.antenna_poloidal Sample.antenna_toroidal)
    (mkField Sample.R_grid Sample.Z_grid (fun _ Z_ => g Z_)) enter tau
  = g (-3 + tau * L) - enter.
Proof.
  unfold Launch.poloidal_flux_boundary_along_line.
  pose proof (sample_entry_height L tau) as HZ.
  destruct (Launch.to_cylindrical _ _) as [[R_ zeta] Z_].
  simpl in HZ. simpl. rewrite HZ. reflexivity.
Qed.

(** The hundred sample parameters are the multiples of 1/99 up to 1; none
    lies strictly between 29/99 and 30/99. *)
Lemma np_linspace01_100_inv (tau : R) :
  In tau (np_linspace01 100) -> 0 <= tau * 99 <= 29 \/ 30 <= tau * 99 <= 99.
Proof.
  unfold np_linspace01. intros H. apply in_map_iff in H.
  destruct H as (i & <- & Hi). apply in_seq in Hi.
  replace (INR (100 - 1)) with 99 by (rewrite INR_IZR_INZ; reflexivity).
  replace (INR i / 99 * 99) with (INR i) by field.
  destruct (Nat.le_gt_cases i 29) as [Hle | Hgt].
  - left. split; [apply pos_INR |].
    apply le_INR in Hle. rewrite (INR_IZR_INZ 29) in Hle. exact Hle.
  - right. split.
    + apply (le_INR 30) in Hgt. rewrite (INR_IZR_INZ 30) in Hgt. exact Hgt.
    + assert (H99 : (i <= 99)%nat) by lia. apply le_INR in H99.
      rewrite (INR_IZR_INZ 99) in H99. exact H99.
Qed.

(** *** The secant iteration *)

Lemma secant_loop_S (func : R -> R) (maxiter : nat) (p0 q0 p1 q1 : R) :
  Sample.secant_loop func (S maxiter) p0 q0 p1 q1
  = if Req_dec_T q1 q0 then mkRoot true "converged" ((p1 + p0) / 2)
    else
      let p :=
        if Rgt_dec (Rabs q1) (Rabs q0)
        then (- q0 / q1 * p1 + p0) / (1 - q0 / q1)
        else (- q1 / q0 * p0 + p1) / (1 - q1 / q0) in
      if Rle_dec (Rabs (p - p1)) Sample.secant_tol then mkRoot true "converged" p
      else Sample.secant_loop func maxiter p1 q1 p (func p).
Proof. reflexivity. Qed.

(** Two starting points with the same value: the iteration stops at once
    with their midpoint and reports convergence. *)
Lemma secant_flat (f : R -> R) (x0 x1 : R) :
  f x1 = f x0 -> Sample.secant f x0 x1 = mkRoot true "converged" ((x1 + x0) / 2).
Proof.
  intros H. unfold Sample.secant. cbv zeta. rewrite H.
  destruct (Rlt_dec _ _) as [Hlt | _]; [exfalso; lra |].
  unfold Sample.secant_maxiter. rewrite secant_loop_S.
  destruct (Req_dec_T _ _) as [_ | Hne]; [reflexivity | contradiction].
Qed.

(** A first starting point that is a root already: the iteration answers
    it, after two steps. *)
Lemma secant_exact_root (f : R -> R) (x0 x1 : R) :
  f x0 = 0 -> f x1 <> 0 -> Rabs (x0 - x1) > Sample.secant_tol ->
  Sample.secant f x0 x1 = mkRoot true "converged" x0.
Proof.
  intros H0 H1 Hfar. unfold Sample.secant. cbv zeta. rewrite H0.
  pose proof (Rabs_pos_lt _ H1) as Hq. rewrite Rabs_R0.
  destruct (Rlt_dec _ _) as [Hlt | _]; [exfalso; lra |].
  unfold Sample.secant_maxiter. rewrite secant_loop_S. cbv zeta.
  destruct (Req_dec_T _ _) as [He | _]; [contradiction |].
  rewrite Rabs_R0.
  destruct (Rgt_dec _ _) as [_ | Hn]; [| exfalso; apply Hn; exact Hq].
  replace ((- 0 / f x1 * x1 + x0) / (1 - 0 / f x1)) with x0 by (field; exact H1).
  destruct (Rle_dec _ _) as [Hle | _]; [exfalso; lra |].
  rewrite H0, secant_loop_S. cbv zeta.
  destruct (Req_dec_T _ _) as [He | _]; [exfalso; apply H1; symmetry; exact He |].
  rewrite Rabs_R0.
  destruct (Rgt_dec _ _) as [Hg | _]; [exfalso; lra |].
  replace ((- 0 / f x1 * x1 + x0) / (1 - 0 / f x1)) with x0 by (field; exact H1).
  replace (x0 - x0) with 0 by ring. rewrite Rabs_R0.
  destruct (Rle_dec _ _) as [_ | Hn]; [reflexivity |].
  exfalso. apply Hn. unfold Sample.secant_tol. lra.
Qed.


(** On the branch [0.02005 / (0.701 - tau)] of a hyperbola each secant
    step adds the distances of the last two points from the pole, so the
    points move away for as long as the iteration runs, and it ends without
    convergence. *)
Lemma secant_loop_runs_away (f : R -> R) :
  (forall tau, tau <= -0.1 \/ tau = 0.301 -> f tau = 0.02005 / (0.701 - tau)) ->
  forall (maxiter : nat) (p0 p1 : R),
    p1 <= -0.1 -> p1 < p0 -> p0 <= -0.1 \/ p0 = 0.301 ->
    exists p,
      Sample.secant_loop f maxiter p0 (f p0) p1 (f p1)
      = mkRoot false "convergence error" p.
Proof.
  intros Hf maxiter. induction maxiter as [| maxiter IH]; intros p0 p1 H1 H10 H0.
  - eexists. reflexivity.
  - rewrite secant_loop_S. cbv zeta.
    rewrite (Hf p0) by assumption. rewrite (Hf p1) by lra.
    assert (Hq0 : 0 < 0.02005 / (0.701 - p0)) by (apply Rdiv_pos_pos; lra).
    assert (Hq1 : 0 < 0.02005 / (0.701 - p1)) by (apply Rdiv_pos_pos; lra).
    destruct (Req_dec_T _ _) as [He | _].
    { exfalso. apply (f_equal (fun x => x * (0.701 - p0) * (0.701 - p1))) in He.
      field_simplify in He; lra. }
    set (p := if Rgt_dec _ _ then _ else _).
    assert (Hp : p = p1 + p0 - 0.701).
    { subst p. destruct (Rgt_dec _ _); field; lra. }
    clearbody p. subst p.
    destruct (Rle_dec _ _) as [Hle | _].
    { exfalso. unfold Sample.secant_tol in Hle. rewrite Rabs_left in Hle; lra. }
    rewrite <- (Hf p1) by lra.
    apply IH; lra.
Qed.

(** *** The sample fields along the ray *)

Lemma shelf_flux_off_shelf (Z_ : R) :
  Z_ <= -0.07 \/ 0.03 <= Z_ -> Sample.shelf_flux Z_ = 1 - Z_.
Proof.
  intros H. unfold Sample.shelf_flux, Rmax, Rmin.
  destruct (Rle_dec 1.05 _); destruct (Rle_dec _ _); lra.
Qed.

Lemma shelf_flux_on_shelf (Z_ : R) :
  -0.05 <= Z_ <= 0.02 -> Sample.shelf_flux Z_ = 1.05.
Proof.
  intros H. unfold Sample.shelf_flux, Rmax, Rmin.
  destruct (Rle_dec 1.05 _); destruct (Rle_dec _ _); lra.
Qed.

Lemma tilted_shelf_flux_off_shelf (Z_ : R) :
  -3 <= Z_ <= -0.07 \/ 0.03 <= Z_ -> Sample.tilted_shelf_flux Z_ = 1 - Z_.
Proof.
  intros H. unfold Sample.tilted_shelf_flux, Rmax, Rmin.
  destruct (Rlt_dec _ _); [lra |].
  destruct (Rle_dec (1.05 + _) _); destruct (Rle_dec _ _); lra.
Qed.

Lemma tilted_shelf_flux_on_shelf (Z_ : R) :
  -0.04 <= Z_ <= 0.015 -> Sample.tilted_shelf_flux Z_ = 1.05 + Z_ / 80.
Proof.
  intros H. unfold Sample.tilted_shelf_flux, Rmax, Rmin.
  destruct (Rlt_dec _ _); [lra |].
  destruct (Rle_dec (1.05 + _) _); destruct (Rle_dec _ _); lra.
Qed.

Lemma tilted_shelf_flux_behind (Z_ : R) :
  Z_ < -3 -> Sample.tilted_shelf_flux Z_ = 13 + 3 * Z_.
Proof.
  intros H. unfold Sample.tilted_shelf_flux.
  destruct (Rlt_dec _ _); [reflexivity | lra].
Qed.

Lemma runaway_flux_off_shelf (Z_ : R) :
  -3 <= Z_ <= -0.07 \/ 0.03 <= Z_ -> Sample.runaway_flux Z_ = 1 - Z_.
Proof.
  intros H. unfold Sample.runaway_flux.
  destruct (Rlt_dec _ _); [lra |]. apply tilted_shelf_flux_off_shelf. exact H.
Qed.

Lemma runaway_flux_on_shelf (Z_ : R) :
  -0.04 <= Z_ <= 0.015 -> Sample.runaway_flux Z_ = 1.05 + Z_ / 80.
Proof.
  intros H. unfold Sample.runaway_flux.
  destruct (Rlt_dec _ _); [lra |]. apply tilted_shelf_flux_on_shelf. exact H.
Qed.

Lemma runaway_flux_behind (Z_ : R) :
  Z_ <= -4 -> Sample.runaway_flux Z_ = 1 + 0.2005 / (4.01 - Z_).
Proof.
  intros H. unfold Sample.runaway_flux.
  destruct (Rlt_dec _ _); [| lra].
  rewrite tilted_shelf_flux_behind by lra.
  assert (0 < 0.2005 / (4.01 - Z_)) by (apply Rdiv_pos_pos; lra).
  apply Rmax_right. lra.
Qed.

(** At the hundred sample parameters the three fields with a shelf take
    the values of the line [3 - 10 tau], whose only root is 0.3: the shelf
    falls between the samples 29/99 and 30/99. *)
Lemma shelf_samples_on_a_line :
  map (sample_flux_distance Sample.shelf_field) (np_linspace01 100)
  = map (fun tau => 3 - 10 * tau) (np_linspace01 100).
Proof.
  apply map_ext_in. intros tau Htau.
  unfold Sample.shelf_field. rewrite sample_flux_along_line.
  apply np_linspace01_100_inv in Htau.
  rewrite shelf_flux_off_shelf by lra. ring.
Qed.


Lemma runaway_samples_on_a_line :
  map (sample_flux_distance Sample.runaway_field) (np_linspace01 100)
  = map (fun tau => 3 - 10 * tau) (np_linspace01 100).
Proof.
  apply map_ext_in. intros tau Htau.
  unfold Sample.runaway_field. rewrite sample_flux_along_line.
  apply np_linspace01_100_inv in Htau.
  rewrite runaway_flux_off_shelf by lra. ring.
Qed.

(** On the flat shelf both starting points have the value 0.05: the
    iteration answers their midpoint. *)
Lemma shelf_secant :
  Sample.secant (sample_flux_distance Sample.shelf_field) 0.3 (0.3 + 1e-3)
  = mkRoot true "converged" 0.3005.
Proof.
  rewrite secant_flat.
  - f_equal. lra.
  - unfold Sample.shelf_field. rewrite !sample_flux_along_line.
    rewrite !shelf_flux_on_shelf by lra. reflexivity.
Qed.


(** With the flux levelling off behind the antenna the first step goes to
    [tau = -0.1] as before, and from there the iteration runs away. *)
Lemma runaway_secant :
  exists p,
    Sample.secant (sample_flux_distance Sample.runaway_field) 0.3 (0.3 + 1e-3)
    = mkRoot false "convergence error" p.
Proof.
  set (f := sample_flux_distance Sample.runaway_field).
  assert (Hf : forall tau, tau <= -0.1 \/ tau = 0.301 ->
                           f tau = 0.02005 / (0.701 - tau)).
  { intros tau [H | ->]; subst f; unfold Sample.runaway_field;
      rewrite sample_flux_along_line.
    - rewrite runaway_flux_behind by lra.
      replace (4.01 - (-3 + tau * 10)) with (10 * (0.701 - tau)) by lra.
      unfold Rdiv. rewrite Rinv_mult. lra.
    - rewrite runaway_flux_on_shelf by lra. lra. }
  assert (H0 : f 0.3 = 0.05).
  { subst f. unfold Sample.runaway_field. rewrite sample_flux_along_line.
    rewrite runaway_flux_on_shelf by lra. lra. }
  replace (0.3 + 1e-3) with 0.301 by lra.
  assert (H1 : f 0.301 = 0.050125) by (rewrite Hf; [lra | right; reflexivity]).
  unfold Sample.secant. cbv zeta. rewrite H0, H1. rewrite !Rabs_pos_eq by lra.
  destruct (Rlt_dec _ _) as [Hlt | _]; [exfalso; lra |].
  unfold Sample.secant_maxiter. rewrite secant_loop_S. cbv zeta.
  destruct (Req_dec_T _ _) as [He | _]; [exfalso; lra |].
  rewrite (Rabs_pos_eq 0.050125), (Rabs_pos_eq 0.05) by lra.
  destruct (Rgt_dec _ _) as [_ | Hn]; [| exfalso; lra].
  match goal with
  | |- context [Rle_dec (Rabs (?p - 0.301)) _] =>
      replace p with (-0.1) by (field_simplify_eq; lra)
  end.
  destruct (Rle_dec _ _) as [Hle | _].
  { exfalso. unfold Sample.secant_tol in Hle. rewrite Rabs_left in Hle; lra. }
  rewrite <- H1.
  apply (secant_loop_runs_away f Hf); [lra | lra | right; reflexivity].
Qed.

(** A flux whose boundary value is met exactly at [Z = 0], the height of
    the first starting point: the iteration answers 0.3. *)
Lemma sample_secant_exact_root (g : R -> R) :
  g 0 = 1 -> g 0.01 <> 1 ->
  Sample.secant
    (sample_flux_distance (mkField Sample.R_grid Sample.Z_grid (fun _ Z_ => g Z_)))
    0.3 (0.3 + 1e-3)
  = mkRoot true "converged" 0.3.
Proof.
  intros H0 H1.
  apply secant_exact_root; rewrite ?sample_flux_along_line.
  - replace (-3 + 0.3 * 10) with 0 by lra. lra.
  - replace (-3 + (0.3 + 1e-3) * 10) with 0.01 by lra. lra.
  - unfold Sample.secant_tol. rewrite Rabs_left; lra.
Qed.

(** The value returned on the sample ray once the secant iteration has
    converged. *)
Lemma sample_find_entry_point_found (g : R -> R) (minimum : OptimizeResult) (tau : R) :
  Sample.secant
    (sample_flux_distance (mkField Sample.R_grid Sample.Z_grid (fun _ Z_ => g Z_)))
    0.3 (0.3 + 1e-3)
  = mkRoot true "converged" tau ->
  sample_find_entry_point [0.3] minimum
    Sample.antenna Sample.antenna_poloidal Sample.antenna_toroidal 1
    (mkField Sample.R_grid Sample.Z_grid (fun _ Z_ => g Z_)) boundary_adjust_default
  = Ok (sample_point (if Rgt_dec (g (-3 + tau * 10)) 1
                      then tau + boundary_adjust_default else tau)).
Proof.
  intros Hsecant.
  pose proof (find_entry_point_found
                Sample.toroidal_to_cartesian Sample.cartesian_to_cylindrical
                (Sample.spline_roots_are [0.3])
                (Sample.minimize_scalar_is minimum)
                Sample.secant Sample.str_of_float
                Sample.antenna Sample.antenna_poloidal Sample.antenna_toroidal 1
                (mkField Sample.R_grid Sample.Z_grid (fun _ Z_ => g Z_))
                boundary_adjust_default 10 0.3 []
                (sample_max_length _) eq_refl) as Hrun.
  cbv zeta in Hrun. rewrite Hsecant in Hrun. rewrite (Hrun eq_refl).
  simpl root. rewrite sample_flux_along_line.
  replace (g (-3 + tau * 10) - 1 + 1) with (g (-3 + tau * 10)) by ring.
  reflexivity.
Qed.

(** The run on the touching flux surfaces: the iteration answers the
    point of contact, where the flux is at the target, and the parameter is
    used as it is. *)
Lemma grazing_run :
  sample_find_entry_point [0.3] (mkOptimize 0.3 0)
    Sample.antenna Sample.antenna_poloidal Sample.antenna_toroidal 1
    Sample.grazing_field boundary_adjust_default
  = Ok (sample_point 0.3).
Proof.
  assert (Hs : Sample.secant (sample_flux_distance Sample.grazing_field)
                 0.3 (0.3 + 1e-3)
               = mkRoot true "converged" 0.3).
  { apply (sample_secant_exact_root (fun Z_ => 1 + Z_ * Z_)); lra. }
  pose proof (sample_find_entry_point_found (fun Z_ => 1 + Z_ * Z_)
                (mkOptimize 0.3 0) 0.3 Hs) as Hrun.
  cbv beta in Hrun.
  destruct (Rgt_dec _ _) as [Hgt | _] in Hrun; [exfalso; lra | exact Hrun].
Qed.


Lemma find_entry_point_beam_misses_witness :
  exists msg,
    sample_find_entry_point [] (mkOptimize 0.3 1)
      Sample.antenna Sample.antenna_poloidal Sample.antenna_toroidal 1
      Sample.distant_field boundary_adjust_default
    = Raise (RuntimeError msg).
Proof.
  eexists.
  apply (find_entry_point_beam_misses
           Sample.toroidal_to_cartesian Sample.cartesian_to_cylindrical
           (Sample.spline_roots_are []) (Sample.minimize_scalar_is (mkOptimize 0.3 1))
           Sample.secant Sample.str_of_float
           Sample.antenna Sample.antenna_poloidal Sample.antenna_toroidal 1
           Sample.distant_field boundary_adjust_default 10).
  - apply sample_max_length.
  - reflexivity.
Defined.

Lemma launch_beam_unknown_coordinate_system_witness :
  sample_launch_beam (Sample.args PyNone "spherical")
  = ([Print [PReal (500 * 299792458 / 299792458); PStr "wavenumber_K0"]],
     Raise (UnboundLocalError "K_R_launch")).
Proof.
  apply (launch_beam_unknown_coordinate_system
           Sample.toroidal_to_cartesian Sample.cartesian_to_cylindrical
           (Sample.spline_roots_are [0.3]) (Sample.minimize_scalar_is (mkOptimize 0.3 0))
           Sample.secant
           Sample.str_of_float Sample.angular_frequency_to_wavenumber
           Sample.find_Psi_3D_lab Sample.find_K_lab_Cartesian Sample.find_K_lab
           Sample.cylindrical_to_cartesian
           Sample.apply_discontinuous_BC Sample.apply_continuous_BC
           (Sample.args PyNone "spherical") [] PyNone).
  - simpl. discriminate.
  - simpl. discriminate.
  - reflexivity.
  - reflexivity.
Defined.

Lemma Psi_BC_flag_normalisation_witness :
  sample_launch_beam (Sample.args (PyStr "bogus") "cylindrical")
  = ([], Raise (ValueError
       "Unexpected value for `Psi_BC_flag` (bogus), expected one of None, 'continuous, or 'discontinuous'")).
Proof.
  apply ((proj2 (proj2 (proj2 (proj2
           (Psi_BC_flag_normalisation
              Sample.toroidal_to_cartesian Sample.cartesian_to_cylindrical
              (Sample.spline_roots_are [0.3])
              (Sample.minimize_scalar_is (mkOptimize 0.3 0))
              Sample.secant
              Sample.str_of_float Sample.angular_frequency_to_wavenumber
              Sample.find_Psi_3D_lab Sample.find_K_lab_Cartesian Sample.find_K_lab
              Sample.cylindrical_to_cartesian
              Sample.apply_discontinuous_BC Sample.apply_continuous_BC)))))
           (Sample.args (PyStr "bogus") "cylindrical") "bogus").
  - reflexivity.
  - discriminate.
  - discriminate.
Defined.

(** C9 (as the code has it): on the field with the flat shelf the hundred
    samples are those of the line [3 - 10 tau], with the root 0.3, and the
    secant iteration started at 0.3 and 0.301 finds the same value twice and
    answers the midpoint 0.3005, still on the shelf.  The flux there is
    above the target, the parameter is moved forward once by
    [boundary_adjust], and the returned point still has a flux above the
    target, although the ray is inside the boundary a little further on: the
    guard is a single [if], not a loop. *)
Theorem find_entry_point_single_nudge :
  exists R_ zeta Z_,
    sample_find_entry_point [0.3] (mkOptimize 0.3 0)
      Sample.antenna Sample.antenna_poloidal Sample.antenna_toroidal 1
      Sample.shelf_field boundary_adjust_default
    = Ok (R_, zeta, Z_)
    /\ map (sample_flux_distance Sample.shelf_field) (np_linspace01 100)
       = map (fun tau => 3 - 10 * tau) (np_linspace01 100)
    /\ Sample.secant (sample_flux_distance Sample.shelf_field) 0.3 (0.3 + 1e-3)
       = mkRoot true "converged" 0.3005
    /\ Z_ = -3 + (0.3005 + boundary_adjust_default) * 10
    /\ poloidal_flux Sample.shelf_field R_ Z_ > 1
    /\ sample_flux_distance Sample.shelf_field
         (0.3005 + 250000 * boundary_adjust_default) < 0.
Proof.
  pose proof (sample_find_entry_point_found Sample.shelf_flux (mkOptimize 0.3 0) 0.3005
                shelf_secant) as Hrun.
  fold Sample.shelf_field in Hrun.
  rewrite shelf_flux_on_shelf in Hrun by lra.
  destruct (Rgt_dec 1.05 1) as [_ | Hn] in Hrun; [| exfalso; lra].
  pose proof (sample_entry_height 10 (0.3005 + boundary_adjust_default)) as HZ.
  destruct (sample_point (0.3005 + boundary_adjust_default)) as [[R_ zeta] Z_].
  simpl snd in HZ.
  exists R_, zeta, Z_.
  split; [exact Hrun |].
  split; [exact shelf_samples_on_a_line |].
  split; [exact shelf_secant |].
  split; [exact HZ |].
  split.
  - simpl. rewrite HZ, shelf_flux_on_shelf; unfold boundary_adjust_default; lra.
  - unfold Sample.shelf_field. rewrite sample_flux_along_line.
    rewrite shelf_flux_off_shelf; unfold boundary_adjust_default; lra.
Qed.



Lemma sample_diagonal :
  Psi_w_beam_diagonal (500 * 299792458 / 299792458) 0 0.05
  = Ok (RtoC (500 * 299792458 / 299792458 * 0) + mkC 0 2 * RtoC (/ (0.05 * 0.05)))%C.
Proof.
  unfold Psi_w_beam_diagonal. rewrite pow_minus_2_Ok by lra. reflexivity.
Qed.

(** The sample launch in cylindrical mode runs to the end. *)
Lemma sample_launch_run :
  exists K_i pos launch_K Psi_i Psi_l Psi_e Psi_ec d,
    sample_launch_beam (Sample.args PyNone "cylindrical")
    = ([ Print [PReal (500 * 299792458 / 299792458); PStr "wavenumber_K0"];
         Print [PReal (np_deg2rad (-90) + PI / 2); PStr "poloidal_rotation_angle"];
         Print [PStr "Psi_3D NEEDS to be changed!"];
         Print [] ],
       Ok (Propagated K_i pos launch_K Psi_i Psi_l Psi_e Psi_ec d)).
Proof.
  do 8 eexists.
  eapply (launch_beam_cylindrical_run
            Sample.toroidal_to_cartesian Sample.cartesian_to_cylindrical
            (Sample.spline_roots_are [0.3]) (Sample.minimize_scalar_is (mkOptimize 0.3 0))
            Sample.secant
            Sample.str_of_float Sample.angular_frequency_to_wavenumber
            Sample.find_Psi_3D_lab Sample.find_K_lab_Cartesian Sample.find_K_lab
            Sample.cylindrical_to_cartesian
            Sample.apply_discontinuous_BC Sample.apply_continuous_BC
            (Sample.args PyNone "cylindrical")
            (500 * 299792458 / 299792458) 3 0 (-3)).
  - reflexivity.
  - reflexivity.
  - reflexivity.
  - reflexivity.
  - reflexivity.
  - exact sample_diagonal.
  - reflexivity.
  - change (poloidal_launch_angle_Torbeam (Sample.args PyNone "cylindrical"))
      with (-90).
    change (toroidal_launch_angle_Torbeam (Sample.args PyNone "cylindrical"))
      with (-180).
    replace (np_deg2rad (-90)) with Sample.antenna_poloidal
      by (unfold np_deg2rad, Sample.antenna_poloidal; lra).
    replace (np_deg2rad (-180)) with Sample.antenna_toroidal
      by (unfold np_deg2rad, Sample.antenna_toroidal; lra).
    exact grazing_run.
  - reflexivity.
  - reflexivity.
  - reflexivity.
  - reflexivity.
Qed.

Lemma vacuum_diffraction_closed_form_witness :
  exists (Psi_ec : M3) (d : R),
    let K0 := 500 * 299792458 / 299792458 in
    let launch := M2_scale (RtoC (K0 * 0) + mkC 0 2 * RtoC (/ (0.05 * 0.05)))%C np_eye2 in
    let spread := M2_add (M2_scale (RtoC (d / K0)) np_eye2) (find_inverse_2D launch) in
    let entry := find_inverse_2D spread in
    M2_mul entry spread = np_eye2
    /\ M2_mul (find_inverse_2D launch) launch = np_eye2
    /\ Psi_ec = to_lab_frame (launch_rotation_matrix (Sample.args PyNone "cylindrical"))
                  (make_array_3x3 entry).
Proof.
  destruct sample_launch_run
    as (K_i & pos & launch_K & Psi_i & Psi_l & Psi_e & Psi_ec & d & Hrun).
  exists Psi_ec, d.
  assert (Hw : 0 < launch_beam_width (Sample.args PyNone "cylindrical"))
    by (simpl; lra).
  assert (HK0 : 0 < 500 * 299792458 / 299792458) by lra.
  destruct (vacuum_diffraction_closed_form
              Sample.toroidal_to_cartesian Sample.cartesian_to_cylindrical
              (Sample.spline_roots_are [0.3])
              (Sample.minimize_scalar_is (mkOptimize 0.3 0))
              Sample.secant
              Sample.str_of_float Sample.angular_frequency_to_wavenumber
              Sample.find_Psi_3D_lab Sample.find_K_lab_Cartesian Sample.find_K_lab
              Sample.cylindrical_to_cartesian
              Sample.apply_discontinuous_BC Sample.apply_continuous_BC
              (Sample.args PyNone "cylindrical") _ _ _ _ _ _ _ _ _ _
              Hrun eq_refl Hw HK0)
    as (_ & _ & Hl & _ & He & _ & _ & _ & Hec).
  cbv zeta. repeat split; assumption.
Defined.

End LaunchExamples.

(** * Properties beyond the claims *)

(** ** The state codec and the right-hand side *)

Section CodecProperties.

Import Evolution.
Import More.

Lemma np_real_cplx (a b : R) : np_real (cplx a b) = a.
Proof. unfold cplx. simpl. ring. Qed.

Lemma np_imag_cplx (a b : R) : np_imag (cplx a b) = b.
Proof. unfold cplx. simpl. ring. Qed.

(** X1: the decoder's layout.  From an 18-slot vector it returns the
    position from slots 0-2 and the wavevector from slots 3-5; the entries
    [xx], [yy], [zz], [xz], [yz] of [Psi] have their real parts in slots 6, 7,
    8, 10, 11 and their imaginary parts in slots 12, 13, 14, 16, 17; the
    matrix is symmetric; and both [xy] entries are zero whatever slots 9 and 15
    hold. *)
Theorem unpack_beam_parameters_3D_layout (xs : list R) :
  List.length xs = 18%nat ->
  let s i := nth i xs 0 in
  exists b,
    unpack_beam_parameters_3D (Arr1 xs) = Ok b
    /\ (q_X b, q_Y b, q_Z b) = (s 0%nat, s 1%nat, s 2%nat)
    /\ (K_X b, K_Y b, K_Z b) = (s 3%nat, s 4%nat, s 5%nat)
    /\ (forall i j, mget (Psi b) i j = mget (Psi b) j i)
    /\ (np_real (mget (Psi b) i0 i0), np_imag (mget (Psi b) i0 i0)) = (s 6%nat, s 12%nat)
    /\ (np_real (mget (Psi b) i1 i1), np_imag (mget (Psi b) i1 i1)) = (s 7%nat, s 13%nat)
    /\ (np_real (mget (Psi b) i2 i2), np_imag (mget (Psi b) i2 i2)) = (s 8%nat, s 14%nat)
    /\ (np_real (mget (Psi b) i0 i2), np_imag (mget (Psi b) i0 i2)) = (s 10%nat, s 16%nat)
    /\ (np_real (mget (Psi b) i1 i2), np_imag (mget (Psi b) i1 i2)) = (s 11%nat, s 17%nat)
    /\ mget (Psi b) i0 i1 = C0.
Proof.
  intros H s. subst s.
  destruct (list_of_length_18 xs H)
    as (x0 & x1 & x2 & x3 & x4 & x5 & x6 & x7 & x8 & x9 & x10 & x11
        & x12 & x13 & x14 & x15 & x16 & x17 & ->).
  eexists. split; [reflexivity |]. simpl.
  repeat split; try reflexivity; try (f_equal; ring).
  intros i j. destruct i, j; reflexivity.
Qed.

(** X2: a state with fewer than 18 slots is refused with [IndexError] at
    the first missing slot that the decoder reads, and so is a
    zero-dimensional array. *)
Theorem unpack_beam_parameters_3D_too_short :
  (forall xs, (List.length xs < 18)%nat ->
     exists i, unpack_beam_parameters_3D (Arr1 xs) = Raise (IndexError i (List.length xs))
               /\ (List.length xs <= i < 18)%nat)
  /\ (forall x, unpack_beam_parameters_3D (Arr0 x) = Raise (IndexError 0 0)).
Proof.
  split; [| reflexivity].
  intros xs H.
  do 18 (destruct xs as [| ? xs];
         [eexists; split; [reflexivity | simpl; lia] |]).
  simpl in H. lia.
Qed.

(** X3: slots beyond the eighteenth are ignored: a longer vector decodes
    like its first eighteen slots. *)
Theorem unpack_beam_parameters_3D_ignores_tail (xs tail : list R) :
  List.length xs = 18%nat ->
  unpack_beam_parameters_3D (Arr1 (xs ++ tail)) = unpack_beam_parameters_3D (Arr1 xs).
Proof.
  intros H.
  destruct (list_of_length_18 xs H)
    as (x0 & x1 & x2 & x3 & x4 & x5 & x6 & x7 & x8 & x9 & x10 & x11
        & x12 & x13 & x14 & x15 & x16 & x17 & ->).
  reflexivity.
Qed.

(** X4: decoding and then encoding.  The eighteen values that the encoder
    hands to [np.array] for a decoded state are the original slots, except
    that slots 9 and 15 (the [xy] entry) have become zero. *)
Theorem pack_arguments_of_unpacked (xs : list R) :
  List.length xs = 18%nat ->
  exists b,
    unpack_beam_parameters_3D (Arr1 xs) = Ok b
    /\ pack_beam_parameters_3D (q_X b) (q_Y b) (q_Z b) (K_X b) (K_Y b) (K_Z b) (Psi b)
       = np_array (pack_arguments (q_X b) (q_Y b) (q_Z b) (K_X b) (K_Y b) (K_Z b) (Psi b))
    /\ pack_arguments (q_X b) (q_Y b) (q_Z b) (K_X b) (K_Y b) (K_Z b) (Psi b)
       = (firstn 9 xs ++ [0] ++ firstn 5 (skipn 10 xs) ++ [0] ++ skipn 16 xs)%list.
Proof.
  intros H.
  destruct (list_of_length_18 xs H)
    as (x0 & x1 & x2 & x3 & x4 & x5 & x6 & x7 & x8 & x9 & x10 & x11
        & x12 & x13 & x14 & x15 & x16 & x17 & ->).
  eexists. split; [reflexivity |]. split; [reflexivity |].
  unfold pack_arguments. simpl.
  repeat (f_equal; try ring).
Qed.

Section RightHandSide.

Variable hessians_3D : dict -> result (M3 * M3 * M3).

(** X5: failures pass through the right-hand side unchanged.  A state that
    cannot be decoded fails before the provider is asked; a failure of the
    provider or of [hessians_3D] is the failure of the call. *)
Theorem beam_evolution_fun_3D_propagates
    (tau : R) (beam_parameters : ndarray) (hamiltonian : Hamiltonian_3D) (e : exn) :
  (unpack_beam_parameters_3D beam_parameters = Raise e ->
   beam_evolution_fun_3D hessians_3D tau beam_parameters hamiltonian = Raise e)
  /\ (forall b,
        unpack_beam_parameters_3D beam_parameters = Ok b ->
        hamiltonian (q_X b) (q_Y b) (q_Z b) (K_X b) (K_Y b) (K_Z b) = Raise e ->
        beam_evolution_fun_3D hessians_3D tau beam_parameters hamiltonian = Raise e)
  /\ (forall b dH,
        unpack_beam_parameters_3D beam_parameters = Ok b ->
        hamiltonian (q_X b) (q_Y b) (q_Z b) (K_X b) (K_Y b) (K_Z b) = Ok dH ->
        hessians_3D dH = Raise e ->
        beam_evolution_fun_3D hessians_3D tau beam_parameters hamiltonian = Raise e).
Proof.
  unfold beam_evolution_fun_3D. repeat split.
  - intros ->. reflexivity.
  - intros b Hu Hd. rewrite Hu. simpl. rewrite Hd. reflexivity.
  - intros b dH Hu Hd Hh. rewrite Hu. simpl. rewrite Hd. simpl. rewrite Hh. reflexivity.
Qed.

(** X6: the right-hand side reads the K-derivatives under the names
    [dH_dKx], [dH_dKy], [dH_dKz].  A dictionary that has the three position
    derivatives but no [dH_dKx] makes the call raise [KeyError] for that
    name. *)
Theorem beam_evolution_fun_3D_KeyError
    (tau : R) (beam_parameters : ndarray) (hamiltonian : Hamiltonian_3D)
    (b : beam) (dH : dict) (H3 : M3 * M3 * M3) :
  unpack_beam_parameters_3D beam_parameters = Ok b ->
  hamiltonian (q_X b) (q_Y b) (q_Z b) (K_X b) (K_Y b) (K_Z b) = Ok dH ->
  hessians_3D dH = Ok H3 ->
  dH "dH_dX"%string <> None -> dH "dH_dY"%string <> None -> dH "dH_dZ"%string <> None ->
  dH "dH_dKx"%string = None ->
  beam_evolution_fun_3D hessians_3D tau beam_parameters hamiltonian
  = Raise (KeyError "dH_dKx").
Proof.
  intros Hu Hd Hh HX HY HZ HK. unfold beam_evolution_fun_3D.
  rewrite Hu. simpl. rewrite Hd. simpl. rewrite Hh. simpl.
  destruct H3 as [[Hpp Hkp] Hkk]. unfold getitem.
  destruct (dH "dH_dX"%string); [| contradiction]. simpl.
  destruct (dH "dH_dY"%string); [| contradiction]. simpl.
  destruct (dH "dH_dZ"%string); [| contradiction]. simpl.
  rewrite HK. reflexivity.
Qed.

End RightHandSide.

Lemma np_transpose_d_Psi_d_tau (Psi grad_grad_H gradK_grad_H gradK_gradK_H : M3) :
  np_transpose (d_Psi_d_tau Psi grad_grad_H gradK_grad_H gradK_gradK_H)
  = d_Psi_d_tau (np_transpose Psi) (np_transpose grad_grad_H) gradK_grad_H
      (np_transpose gradK_gradK_H).
Proof.
  unfold d_Psi_d_tau.
  rewrite !np_transpose_Msub, np_transpose_Mopp, !np_transpose_matmul.
  rewrite np_transpose_involutive.
  rewrite (Msub_swap (Mopp (np_transpose grad_grad_H))).
  rewrite np_matmul_assoc. reflexivity.
Qed.

Lemma d_Psi_d_tau_injective (Psi A A' B K : M3) :
  d_Psi_d_tau Psi A B K = d_Psi_d_tau Psi A' B K -> A = A'.
Proof.
  intros H. apply M3_ext. intros i j.
  apply (f_equal (fun m => mget m i j)) in H.
  unfold d_Psi_d_tau, Msub, Mopp in H. rewrite !mget_of_fun in H.
  match type of H with
  | (- ?a - ?x - ?y - ?z = - ?a' - _ - _ - _)%C =>
      replace a with (- (- a - x - y - z) - x - y - z)%C by ring;
      rewrite H; ring
  end.
Qed.

(** X7: for a symmetric [Psi] and a symmetric K-K tensor, the Riccati
    right-hand side is symmetric exactly when the position-position tensor
    is: an asymmetric [grad_grad_H] always breaks the symmetry of the update. *)
Theorem d_Psi_d_tau_symmetric_iff (Psi grad_grad_H gradK_grad_H gradK_gradK_H : M3) :
  symmetric Psi -> symmetric gradK_gradK_H ->
  (symmetric (d_Psi_d_tau Psi grad_grad_H gradK_grad_H gradK_gradK_H)
   <-> symmetric grad_grad_H).
Proof.
  unfold symmetric. intros HPsi Hkk.
  rewrite np_transpose_d_Psi_d_tau, HPsi, Hkk.
  split.
  - apply d_Psi_d_tau_injective.
  - intros ->. reflexivity.
Qed.

End CodecProperties.

Section CodecPropertyWitnesses.

Import Evolution.
Import More.

Lemma unpack_beam_parameters_3D_layout_witness :
  exists b, unpack_beam_parameters_3D (Arr1 state_1_to_18) = Ok b
            /\ (q_X b, q_Y b, q_Z b) = (1, 2, 3)
            /\ mget (Psi b) i0 i1 = C0.
Proof.
  destruct (unpack_beam_parameters_3D_layout state_1_to_18 eq_refl)
    as (b & Hb & Hq & _ & _ & _ & _ & _ & _ & _ & Hxy).
  exists b. repeat split; assumption.
Defined.

Lemma unpack_beam_parameters_3D_too_short_witness :
  exists i, unpack_beam_parameters_3D (Arr1 [1; 2; 3; 4; 5; 6; 7])
            = Raise (IndexError i 7)
            /\ (7 <= i < 18)%nat.
Proof.
  apply (proj1 unpack_beam_parameters_3D_too_short [1; 2; 3; 4; 5; 6; 7]).
  simpl. lia.
Defined.

Lemma unpack_beam_parameters_3D_ignores_tail_witness :
  unpack_beam_parameters_3D (Arr1 (state_1_to_18 ++ [19; 20]))
  = unpack_beam_parameters_3D (Arr1 state_1_to_18).
Proof.
  apply unpack_beam_parameters_3D_ignores_tail. reflexivity.
Defined.

Lemma pack_arguments_of_unpacked_witness :
  exists b,
    unpack_beam_parameters_3D (Arr1 state_1_to_18) = Ok b
    /\ pack_arguments (q_X b) (q_Y b) (q_Z b) (K_X b) (K_Y b) (K_Z b) (Psi b)
       = [1; 2; 3; 4; 5; 6; 7; 8; 9; 0; 11; 12; 13; 14; 15; 0; 17; 18].
Proof.
  destruct (pack_arguments_of_unpacked state_1_to_18 eq_refl) as (b & Hb & _ & Hargs).
  exists b. split; [exact Hb | exact Hargs].
Defined.

Lemma beam_evolution_fun_3D_propagates_witness :
  beam_evolution_fun_3D Sample.zero_hessians 0 (Arr1 [1; 2; 3]) Sample.zero_hamiltonian
  = Raise (IndexError 3 3).
Proof.
  apply (proj1 (beam_evolution_fun_3D_propagates Sample.zero_hessians 0 (Arr1 [1; 2; 3])
                  Sample.zero_hamiltonian (IndexError 3 3))).
  reflexivity.
Defined.

Lemma beam_evolution_fun_3D_KeyError_witness :
  beam_evolution_fun_3D Sample.zero_hessians 0 (Arr1 state_1_to_18)
    (fun _ _ _ _ _ _ => Ok launch_style_dict)
  = Raise (KeyError "dH_dKx").
Proof.
  eapply (beam_evolution_fun_3D_KeyError Sample.zero_hessians 0 (Arr1 state_1_to_18)
            (fun _ _ _ _ _ _ => Ok launch_style_dict)).
  - reflexivity.
  - reflexivity.
  - reflexivity.
  - discriminate.
  - discriminate.
  - discriminate.
  - reflexivity.
Defined.

Lemma d_Psi_d_tau_symmetric_iff_witness :
  symmetric (d_Psi_d_tau Sample.Psi_0 Sample.Hpp_0 Sample.Hkp_0 Sample.Hkk_0)
  <-> symmetric Sample.Hpp_0.
Proof.
  apply d_Psi_d_tau_symmetric_iff; reflexivity.
Defined.

End CodecPropertyWitnesses.

(** ** Frames and distances of the launch *)

Section FrameProperties.

Import Launch.
Import More.

Lemma np_matmul_eye3_l (m : M3) : np_matmul np_eye3 m = m.
Proof.
  apply M3_ext. intros i j. unfold np_matmul, np_eye3. rewrite !mget_of_fun.
  destruct i; simpl; ring.
Qed.

Lemma np_matmul_eye3_r (m : M3) : np_matmul m np_eye3 = m.
Proof.
  apply M3_ext. intros i j. unfold np_matmul, np_eye3. rewrite !mget_of_fun.
  destruct j; simpl; ring.
Qed.

Lemma sin_cos_square (x : R) : sin x * sin x + cos x * cos x = 1.
Proof. pose proof (sin2_cos2 x) as H. unfold Rsqr in H. exact H. Qed.

Ltac real_matrix_entries :=
  unfold np_matmul, np_transpose, np_eye3, M3_of_reals, M3_of_fun; simpl;
  f_equal; apply C_eq; simpl; nra.

Lemma rotation_matrix_pol_orthogonal (angle : R) : orthogonal (rotation_matrix_pol angle).
Proof.
  pose proof (sin_cos_square angle) as H.
  unfold orthogonal, rotation_matrix_pol. split; real_matrix_entries.
Qed.

Lemma rotation_matrix_tor_orthogonal (angle : R) : orthogonal (rotation_matrix_tor angle).
Proof.
  pose proof (sin_cos_square angle) as H.
  unfold orthogonal, rotation_matrix_tor. split; real_matrix_entries.
Qed.

Lemma orthogonal_matmul (a b : M3) :
  orthogonal a -> orthogonal b -> orthogonal (np_matmul a b).
Proof.
  unfold orthogonal. intros [Ha1 Ha2] [Hb1 Hb2].
  rewrite np_transpose_matmul. split.
  - rewrite np_matmul_assoc, <- (np_matmul_assoc (np_transpose a)), Ha1.
    rewrite np_matmul_eye3_l. exact Hb1.
  - rewrite np_matmul_assoc, <- (np_matmul_assoc b), Hb2.
    rewrite np_matmul_eye3_l. exact Ha2.
Qed.

(** X8: the rotation between the beam frame and the lab frame that
    [launch_beam] composes from the poloidal and the toroidal rotation is
    orthogonal, for every pair of launch angles: [R^T . R = R . R^T = I], so
    the transpose used as [rotation_matrix_inverse] is the inverse. *)
Theorem launch_rotation_matrix_orthogonal (a : launch_args) :
  orthogonal (launch_rotation_matrix a).
Proof.
  unfold launch_rotation_matrix.
  apply orthogonal_matmul.
  - apply rotation_matrix_pol_orthogonal.
  - apply rotation_matrix_tor_orthogonal.
Qed.

(** X9: rotating into the lab frame, [R^T . Psi . R], keeps a symmetric
    matrix symmetric, whatever the matrix [R]. *)
Theorem to_lab_frame_symmetric (rotation_matrix Psi_beam : M3) :
  symmetric Psi_beam -> symmetric (to_lab_frame rotation_matrix Psi_beam).
Proof.
  unfold symmetric, to_lab_frame. intros H.
  rewrite !np_transpose_matmul, np_transpose_involutive, H.
  rewrite np_matmul_assoc. reflexivity.
Qed.

(** X10: with an orthogonal rotation the change of frame loses nothing:
    rotating the lab-frame matrix back, [R . (R^T . Psi . R) . R^T], gives the
    beam-frame matrix again. *)
Theorem to_lab_frame_inverse (rotation_matrix Psi_beam : M3) :
  orthogonal rotation_matrix ->
  np_matmul rotation_matrix
    (np_matmul (to_lab_frame rotation_matrix Psi_beam) (np_transpose rotation_matrix))
  = Psi_beam.
Proof.
  unfold orthogonal, to_lab_frame. intros [H1 H2].
  rewrite !np_matmul_assoc, H2, np_matmul_eye3_r.
  rewrite <- np_matmul_assoc, H2. apply np_matmul_eye3_l.
Qed.

(** X11: the launch-to-entry distance, written with the law of cosines on
    the two cylindrical positions, is the Euclidean distance between the
    points [(R cos zeta, R sin zeta, Z)]; it is symmetric in the two positions
    and zero from a position to itself. *)
Theorem distance_from_launch_to_entry_euclidean (l0 l1 l2 e0 e1 e2 : R) :
  distance_from_launch_to_entry (l0, l1, l2) (e0, e1, e2)
  = sqrt ((l0 * cos l1 - e0 * cos e1) * (l0 * cos l1 - e0 * cos e1)
          + (l0 * sin l1 - e0 * sin e1) * (l0 * sin l1 - e0 * sin e1)
          + (l2 - e2) * (l2 - e2))
  /\ distance_from_launch_to_entry (l0, l1, l2) (e0, e1, e2)
     = distance_from_launch_to_entry (e0, e1, e2) (l0, l1, l2)
  /\ distance_from_launch_to_entry (l0, l1, l2) (l0, l1, l2) = 0.
Proof.
  unfold distance_from_launch_to_entry. repeat split.
  - f_equal. rewrite cos_minus.
    pose proof (sin_cos_square l1) as Hl. pose proof (sin_cos_square e1) as He.
    replace (l0 * l0) with (l0 * l0 * (sin l1 * sin l1 + cos l1 * cos l1))
      by (rewrite Hl; ring).
    replace (e0 * e0) with (e0 * e0 * (sin e1 * sin e1 + cos e1 * cos e1))
      by (rewrite He; ring).
    ring.
  - f_equal. replace (l1 - e1) with (- (e1 - l1)) by ring. rewrite cos_neg. ring.
  - replace (l1 - l1) with 0 by ring. rewrite cos_0.
    replace (l0 * l0 + l0 * l0 - 2 * l0 * l0 * 1 + (l2 - l2) * (l2 - l2)) with 0 by ring.
    apply sqrt_0.
Qed.

End FrameProperties.

Section FramePropertyWitnesses.

Import Launch.
Import More.

Lemma to_lab_frame_symmetric_witness :
  symmetric (to_lab_frame (launch_rotation_matrix (Sample.args PyNone "cylindrical"))
               Sample.Psi_0).
Proof.
  apply to_lab_frame_symmetric. reflexivity.
Defined.

Lemma to_lab_frame_inverse_witness :
  np_matmul (rotation_matrix_tor 0)
    (np_matmul (to_lab_frame (rotation_matrix_tor 0) Sample.Psi_0)
               (np_transpose (rotation_matrix_tor 0)))
  = Sample.Psi_0.
Proof.
  apply to_lab_frame_inverse. apply rotation_matrix_tor_orthogonal.
Defined.

End FramePropertyWitnesses.

(** ** The entry point and the launch *)

Section LaunchProperties.

Import Launch.
Import More.
Open Scope string_scope.

Variable toroidal_to_cartesian : R -> R -> R -> V3.
Variable cartesian_to_cylindrical : R -> R -> R -> V3.
Variable CubicSpline_roots : list R -> list R -> list R.
Variable minimize_scalar : (R -> R) -> OptimizeResult.
Variable root_scalar : (R -> R) -> R -> R -> RootResults.
Variable str_of_float : R -> string.
Variable angular_frequency_to_wavenumber : R -> result R.
Variable find_Psi_3D_lab : M3 -> R -> R -> R -> R -> result M3.
Variable find_K_lab_Cartesian : V3 -> V3 -> result V3.
Variable find_K_lab : V3 -> V3 -> result V3.
Variable cylindrical_to_cartesian : R -> R -> R -> result V3.
Variable apply_discontinuous_BC :
  R -> R -> M3 -> R -> R -> R -> R -> Z -> R -> R ->
  MagneticField -> Hamiltonian -> option R -> result (V3 * M3).
Variable apply_continuous_BC :
  R -> R -> M3 -> R -> R -> R -> R -> R ->
  MagneticField -> Hamiltonian -> result (V3 * M3).

Local Abbreviation step_array := (Launch.step_array toroidal_to_cartesian).
Local Abbreviation to_cylindrical := (Launch.to_cylindrical cartesian_to_cylindrical).
Local Abbreviation flux_along_line :=
  (Launch.poloidal_flux_boundary_along_line cartesian_to_cylindrical).
Local Abbreviation find_entry_point :=
  (Launch.find_entry_point toroidal_to_cartesian cartesian_to_cylindrical
     CubicSpline_roots minimize_scalar root_scalar str_of_float).
Local Abbreviation launch_beam_propagate :=
  (Launch.launch_beam_propagate toroidal_to_cartesian cartesian_to_cylindrical
     CubicSpline_roots minimize_scalar root_scalar str_of_float
     find_Psi_3D_lab find_K_lab_Cartesian find_K_lab cylindrical_to_cartesian
     apply_discontinuous_BC apply_continuous_BC).
Local Abbreviation launch_beam_body :=
  (Launch.launch_beam_body toroidal_to_cartesian cartesian_to_cylindrical
     CubicSpline_roots minimize_scalar root_scalar str_of_float
     angular_frequency_to_wavenumber
     find_Psi_3D_lab find_K_lab_Cartesian find_K_lab cylindrical_to_cartesian
     apply_discontinuous_BC apply_continuous_BC).
Local Abbreviation launch_beam :=
  (Launch.launch_beam toroidal_to_cartesian cartesian_to_cylindrical
     CubicSpline_roots minimize_scalar root_scalar str_of_float
     angular_frequency_to_wavenumber
     find_Psi_3D_lab find_K_lab_Cartesian find_K_lab cylindrical_to_cartesian
     apply_discontinuous_BC apply_continuous_BC).

(** X12: the value that lines 103-124 leave in [Psi_BC_flag] is always one
    of [None], ['continuous'], ['discontinuous'], and normalising it once more
    changes nothing and warns about nothing. *)
Theorem normalise_Psi_BC_flag_canonical (f f' : py_flag) (log : list event) :
  normalise_Psi_BC_flag f = (log, Ok f') ->
  In f' [PyNone; PyStr "continuous"; PyStr "discontinuous"]
  /\ normalise_Psi_BC_flag f' = ([], Ok f').
Proof.
  destruct f as [[|] | | s]; simpl.
  - intros H. injection H as _ <-. simpl. auto.
  - intros H. injection H as _ <-. simpl. auto.
  - intros H. injection H as _ <-. simpl. auto.
  - destruct (s =? "continuous") eqn:Ec.
    + apply String.eqb_eq in Ec. subst s. simpl.
      intros H. injection H as _ <-. simpl. auto.
    + destruct (s =? "discontinuous") eqn:Ed; simpl.
      * apply String.eqb_eq in Ed. subst s.
        intros H. injection H as _ <-. simpl. auto.
      * discriminate.
Qed.

(** X13: when the spline has a root but [root_scalar] does not converge
    from it, [find_entry_point] raises a [RuntimeError] that quotes the
    solver's flag; no point is returned. *)
Theorem find_entry_point_refinement_fails
    (launch_position : V3) (pol tor enter : R) (field : MagneticField)
    (boundary_adjust L root0 : R) (rest : list R) :
  max_length launch_position field = Ok L ->
  let f := flux_along_line launch_position (step_array L pol tor) field enter in
  CubicSpline_roots (np_linspace01 100) (map f (np_linspace01 100)) = root0 :: rest ->
  converged (root_scalar f root0 (root0 + 1e-3)) = false ->
  find_entry_point launch_position pol tor enter field boundary_adjust
  = Raise (RuntimeError
      ("Could not find plasma boundary, root finding failed with '"
       ++ flag (root_scalar f root0 (root0 + 1e-3)) ++ "'")).
Proof.
  intros HL f Hroots Hconv. subst f.
  unfold Launch.find_entry_point. rewrite HL. cbv beta iota zeta delta [bind].
  rewrite Hroots, Hconv. reflexivity.
Qed.

(** X14: a field whose [R] grid or [Z] grid is empty is refused with
    numpy's [ValueError] for the maximum of an empty array, before the ray is
    sampled and whatever the scipy routines would answer. *)
Theorem find_entry_point_empty_grid
    (launch_position : V3) (pol tor enter : R) (field : MagneticField)
    (boundary_adjust : R) :
  R_coord field = [] \/ Z_coord field = [] ->
  find_entry_point launch_position pol tor enter field boundary_adjust
  = Raise (ValueError
      "zero-size array to reduction operation maximum which has no identity").
Proof.
  intros H. unfold Launch.find_entry_point, max_length.
  destruct launch_position as [[X Y] Z_].
  destruct (R_coord field) as [| r rs] eqn:HR.
  - reflexivity.
  - destruct H as [H | H]; [discriminate H |]. rewrite H. reflexivity.
Qed.

(** X15: when the refinement converges to a parameter at which the flux
    does not exceed the target, that parameter is used as it is: the returned
    point is the point of the launch line at the refined root, and its flux is
    at most [poloidal_flux_enter]. *)
Theorem find_entry_point_inside
    (launch_position : V3) (pol tor enter : R) (field : MagneticField)
    (boundary_adjust L root0 : R) (rest : list R) :
  max_length launch_position field = Ok L ->
  let f := flux_along_line launch_position (step_array L pol tor) field enter in
  CubicSpline_roots (np_linspace01 100) (map f (np_linspace01 100)) = root0 :: rest ->
  converged (root_scalar f root0 (root0 + 1e-3)) = true ->
  f (root (root_scalar f root0 (root0 + 1e-3))) <= 0 ->
  exists R_ zeta Z_,
    find_entry_point launch_position pol tor enter field boundary_adjust
    = Ok (R_, zeta, Z_)
    /\ (R_, zeta, Z_)
       = to_cylindrical (beam_line launch_position (step_array L pol tor)
                           (root (root_scalar f root0 (root0 + 1e-3))))
    /\ poloidal_flux field R_ Z_ <= enter.
Proof.
  intros HL f Hroots Hconv Hin.
  pose proof (find_entry_point_found
                toroidal_to_cartesian cartesian_to_cylindrical CubicSpline_roots
                minimize_scalar root_scalar str_of_float
                launch_position pol tor enter field boundary_adjust L root0 rest
                HL Hroots Hconv) as Hrun.
  cbv zeta in Hrun. subst f.
  destruct (Rgt_dec _ _) as [Hgt | _] in Hrun; [lra |].
  destruct (to_cylindrical _) as [[R_ zeta] Z_] eqn:Hp in Hrun.
  exists R_, zeta, Z_. split; [exact Hrun |]. split; [symmetry; exact Hp |].
  unfold Launch.poloidal_flux_boundary_along_line in Hin at 1.
  rewrite Hp in Hin. lra.
Qed.

Lemma fold_left_Rmax_ge (l : list R) (a : R) :
  a <= fold_left Rmax l a /\ (forall x, In x l -> x <= fold_left Rmax l a).
Proof.
  revert a. induction l as [| y l IH]; intros a; simpl.
  - split; [lra | intros x []].
  - destruct (IH (Rmax a y)) as [H1 H2]. split.
    + pose proof (Rmax_l a y). lra.
    + intros x [Hy | Hx].
      * subst x. pose proof (Rmax_r a y). lra.
      * apply H2, Hx.
Qed.

Lemma np_max_upper (xs : list R) (m x : R) : np_max xs = Ok m -> In x xs -> x <= m.
Proof.
  destruct xs as [| y ys]; simpl; [discriminate |].
  intros H. injection H as <-.
  destruct (fold_left_Rmax_ge ys y) as [H1 H2].
  intros [Hy | Hx]; [subst x; exact H1 | apply H2, Hx].
Qed.

(** X16: [max_length] is a bound on the distance to travel in the
    [X]-[Z] plane: every point whose [|X|] is at most some value of the [R]
    grid and whose [|Z|] is at most some value of the [Z] grid lies within
    [max_length] of the antenna. *)
Theorem max_length_bounds_distance
    (X_start Y_start Z_start : R) (field : MagneticField) (L R_g Z_g X_p Z_p : R) :
  max_length (X_start, Y_start, Z_start) field = Ok L ->
  In R_g (R_coord field) -> In Z_g (Z_coord field) ->
  Rabs X_p <= R_g -> Rabs Z_p <= Z_g ->
  np_hypot (X_start - X_p) (Z_start - Z_p) <= L.
Proof.
  unfold max_length. intros HL HR HZ HX HZp.
  destruct (np_max (R_coord field)) as [R_max | e] eqn:ER; [| discriminate HL].
  destruct (np_max (Z_coord field)) as [Z_max | e] eqn:EZ; [| discriminate HL].
  simpl in HL. injection HL as <-.
  pose proof (np_max_upper _ _ _ ER HR) as HRm.
  pose proof (np_max_upper _ _ _ EZ HZ) as HZm.
  unfold np_hypot. apply sqrt_le_1_alt.
  assert (HX1 : Rabs (X_start - X_p) <= Rabs X_start + R_max).
  { unfold Rminus. eapply Rle_trans; [apply Rabs_triang |]. rewrite Rabs_Ropp. lra. }
  assert (HZ1 : Rabs (Z_start - Z_p) <= Rabs Z_start + Z_max).
  { unfold Rminus. eapply Rle_trans; [apply Rabs_triang |]. rewrite Rabs_Ropp. lra. }
  pose proof (Rabs_pos (X_start - X_p)) as HX0.
  pose proof (Rabs_pos (Z_start - Z_p)) as HZ0.
  replace ((X_start - X_p) * (X_start - X_p))
    with (Rabs (X_start - X_p) * Rabs (X_start - X_p))
    by (symmetry; exact (Rsqr_abs (X_start - X_p))).
  replace ((Z_start - Z_p) * (Z_start - Z_p))
    with (Rabs (Z_start - Z_p) * Rabs (Z_start - Z_p))
    by (symmetry; exact (Rsqr_abs (Z_start - Z_p))).
  nra.
Qed.

Ltac io_step_tac H x Hx :=
  let l1 := fresh "l" in
  let l2 := fresh "l" in
  let Hl := fresh "Hl" in
  apply iobind_Ok_inv in H; destruct H as (l1 & x & l2 & Hx & H & Hl).

Tactic Notation "io_step" hyp(H) ident(x) ident(Hx) := io_step_tac H x Hx.

Lemma iobind_returned {A B : Type} (log : list event) (a : A) (k : A -> io B) :
  iobind (log, Ok a) k = ((log ++ fst (k a))%list, snd (k a)).
Proof. simpl. destruct (k a); reflexivity. Qed.

(** The first part of a run in cylindrical mode, up to the call of the
    vacuum propagation. *)
Lemma launch_beam_body_cylindrical
    (a : launch_args) (f : py_flag) (K0 p0 p1 p2 : R) (psi : C) (Psi_launch : M3) :
  flag_coordinate_system a = "cylindrical" ->
  launch_position a = (p0, p1, p2) ->
  angular_frequency_to_wavenumber (launch_angular_frequency a) = Ok K0 ->
  Psi_w_beam_diagonal K0 (launch_beam_curvature a) (launch_beam_width a) = Ok psi ->
  let tor := np_deg2rad (toroidal_launch_angle_Torbeam a) in
  let pol := np_deg2rad (poloidal_launch_angle_Torbeam a) in
  let K_R := - K0 * cos tor * cos pol in
  let K_zeta := - K0 * sin tor * cos pol * p0 in
  let K_Z := - K0 * sin pol in
  let launch := M2_scale psi np_eye2 in
  let rot := launch_rotation_matrix a in
  find_Psi_3D_lab (to_lab_frame rot (make_array_3x3 launch)) p0 p1 K_R K_zeta
    = Ok Psi_launch ->
  launch_beam_body a f
  = (([ Print [PReal K0; PStr "wavenumber_K0"];
        Print [PReal (pol + PI / 2); PStr "poloidal_rotation_angle"];
        Print [PStr "Psi_3D NEEDS to be changed!"];
        Print [] ]
      ++ fst (launch_beam_propagate a f tor pol K0 (K_R, K_zeta, K_Z) launch rot
                Psi_launch))%list,
     snd (launch_beam_propagate a f tor pol K0 (K_R, K_zeta, K_Z) launch rot
            Psi_launch)).
Proof.
  intros Hcoords Hpos HK0 Hpsi tor pol K_R K_zeta K_Z launch rot HPl.
  unfold Launch.launch_beam_body.
  rewrite HK0, Hcoords, Hpos.
  change ("cylindrical" =? "cylindrical") with true.
  change ("cylindrical" =? "cartesian") with false.
  cbv beta iota zeta delta [iobind lift emit ret read_local app fst snd].
  fold tor pol. fold K_R K_zeta K_Z.
  rewrite Hpsi.
  cbv beta iota zeta delta [iobind lift emit ret read_local app fst snd].
  unfold launch, rot, launch_rotation_matrix in HPl. fold tor pol in HPl.
  rewrite HPl.
  fold launch. unfold rot, launch_rotation_matrix. fold tor pol.
  destruct (launch_beam_propagate _ _ _ _ _ _ _ _ _) as [l r]. reflexivity.
Qed.

(** X17: with vacuum propagation switched off, a launch in cylindrical
    mode returns the launch quantities as the initial conditions: the initial
    wavevector is the launch wavevector, the initial position the antenna
    position and the initial beam matrix the launch matrix.  The entry point
    is not searched and no boundary condition is applied, whatever
    [Psi_BC_flag] asks for. *)
Theorem launch_beam_without_vacuum_propagation
    (a : launch_args) (log0 : list event) (f : py_flag)
    (K0 p0 p1 p2 : R) (psi : C) (Psi_launch : M3) :
  normalise_Psi_BC_flag (Psi_BC_flag a) = (log0, Ok f) ->
  flag_coordinate_system a = "cylindrical" ->
  vacuum_propagation_flag a = false ->
  launch_position a = (p0, p1, p2) ->
  angular_frequency_to_wavenumber (launch_angular_frequency a) = Ok K0 ->
  Psi_w_beam_diagonal K0 (launch_beam_curvature a) (launch_beam_width a) = Ok psi ->
  let tor := np_deg2rad (toroidal_launch_angle_Torbeam a) in
  let pol := np_deg2rad (poloidal_launch_angle_Torbeam a) in
  let K_launch :=
    (- K0 * cos tor * cos pol, - K0 * sin tor * cos pol * p0, - K0 * sin pol) in
  find_Psi_3D_lab
    (to_lab_frame (launch_rotation_matrix a) (make_array_3x3 (M2_scale psi np_eye2)))
    p0 p1 (- K0 * cos tor * cos pol) (- K0 * sin tor * cos pol * p0)
    = Ok Psi_launch ->
  launch_beam a
  = ((log0 ++ [ Print [PReal K0; PStr "wavenumber_K0"];
                Print [PReal (pol + PI / 2); PStr "poloidal_rotation_angle"];
                Print [PStr "Psi_3D NEEDS to be changed!"];
                Print [] ])%list,
     Ok (NoVacuumPropagation K_launch (p0, p1, p2) K_launch Psi_launch Psi_launch)).
Proof.
  intros Hnorm Hcoords Hvac Hpos HK0 Hpsi tor pol K_launch HPl.
  unfold Launch.launch_beam. rewrite Hnorm, iobind_returned.
  rewrite (launch_beam_body_cylindrical a f K0 p0 p1 p2 psi Psi_launch
             Hcoords Hpos HK0 Hpsi HPl).
  unfold Launch.launch_beam_propagate. rewrite Hvac, Hpos. reflexivity.
Qed.

(** X18: when the search for the entry point fails, the launch fails with
    the same exception: in cylindrical mode with vacuum propagation, an
    exception of [find_entry_point] (the beam misses the plasma, the root
    finder does not converge) is the exception of [launch_beam], raised after
    the four prints and before any boundary condition is applied. *)
Theorem launch_beam_entry_failure
    (a : launch_args) (log0 : list event) (f : py_flag)
    (K0 p0 p1 p2 : R) (psi : C) (Psi_launch : M3) (e : exn) :
  normalise_Psi_BC_flag (Psi_BC_flag a) = (log0, Ok f) ->
  flag_coordinate_system a = "cylindrical" ->
  vacuum_propagation_flag a = true ->
  launch_position a = (p0, p1, p2) ->
  angular_frequency_to_wavenumber (launch_angular_frequency a) = Ok K0 ->
  Psi_w_beam_diagonal K0 (launch_beam_curvature a) (launch_beam_width a) = Ok psi ->
  let tor := np_deg2rad (toroidal_launch_angle_Torbeam a) in
  let pol := np_deg2rad (poloidal_launch_angle_Torbeam a) in
  find_Psi_3D_lab
    (to_lab_frame (launch_rotation_matrix a) (make_array_3x3 (M2_scale psi np_eye2)))
    p0 p1 (- K0 * cos tor * cos pol) (- K0 * sin tor * cos pol * p0)
    = Ok Psi_launch ->
  find_entry_point (p0, p1, p2) pol tor (poloidal_flux_enter a) (field a)
    boundary_adjust_default = Raise e ->
  launch_beam a
  = ((log0 ++ [ Print [PReal K0; PStr "wavenumber_K0"];
                Print [PReal (pol + PI / 2); PStr "poloidal_rotation_angle"];
                Print [PStr "Psi_3D NEEDS to be changed!"];
                Print [] ])%list,
     Raise e).
Proof.
  intros Hnorm Hcoords Hvac Hpos HK0 Hpsi tor pol HPl Hentry.
  unfold Launch.launch_beam. rewrite Hnorm, iobind_returned.
  rewrite (launch_beam_body_cylindrical a f K0 p0 p1 p2 psi Psi_launch
             Hcoords Hpos HK0 Hpsi HPl).
  unfold Launch.launch_beam_propagate. rewrite Hvac, Hpos. simpl negb. cbv iota.
  fold tor pol. rewrite Hentry. reflexivity.
Qed.

(** X19: a beam width of zero stops the launch with [ZeroDivisionError]
    when the launch matrix is built ([launch_beam_width ** (-2)] on a Python
    float), in either coordinate mode, once the flag is valid and the
    wavenumber is known. *)
Theorem launch_beam_zero_width
    (a : launch_args) (log0 : list event) (f : py_flag) (K0 : R) :
  normalise_Psi_BC_flag (Psi_BC_flag a) = (log0, Ok f) ->
  flag_coordinate_system a = "cylindrical" \/ flag_coordinate_system a = "cartesian" ->
  angular_frequency_to_wavenumber (launch_angular_frequency a) = Ok K0 ->
  launch_beam_width a = 0 ->
  exists log,
    launch_beam a
    = (log, Raise (ZeroDivisionError "0.0 cannot be raised to a negative power")).
Proof.
  intros Hnorm Hcoords HK0 Hw.
  assert (Hdiag : Psi_w_beam_diagonal K0 (launch_beam_curvature a) (launch_beam_width a)
                  = Raise (ZeroDivisionError "0.0 cannot be raised to a negative power")).
  { unfold Psi_w_beam_diagonal, pow_minus_2. rewrite Hw.
    destruct (Req_dec_T 0 0) as [_ | H]; [reflexivity | contradiction H; reflexivity]. }
  unfold Launch.launch_beam. rewrite Hnorm, iobind_returned.
  unfold Launch.launch_beam_body. rewrite HK0.
  destruct (launch_position a) as [[p0 p1] p2].
  destruct Hcoords as [-> | ->].
  - change ("cylindrical" =? "cylindrical") with true.
    cbv beta iota zeta delta [iobind lift emit ret read_local app fst snd].
    rewrite Hdiag. eexists. reflexivity.
  - change ("cartesian" =? "cylindrical") with false.
    change ("cartesian" =? "cartesian") with true.
    cbv beta iota zeta delta [iobind lift emit ret read_local app fst snd].
    rewrite Hdiag. eexists. reflexivity.
Qed.

Lemma launch_beam_propagate_launch_K
    (a : launch_args) (f : py_flag) (tor pol K0 : R) (K_launch : V3)
    (launch : M2) (rotation_matrix Psi_launch : M3)
    (log : list event) (out : launch_output) :
  launch_beam_propagate a f tor pol K0 K_launch launch rotation_matrix Psi_launch
    = (log, Ok out) ->
  output_launch_K out = Some K_launch.
Proof.
  unfold Launch.launch_beam_propagate.
  destruct K_launch as [[KR Kzeta] KZ].
  destruct (vacuum_propagation_flag a); simpl negb; cbv iota.
  - intros H.
    io_step H entry Hentry. cbv zeta in H.
    io_step H Kc HKc. destruct entry as [[e0 e1] e2].
    io_step H ec Hec. io_step H Ke HKe. destruct Ke as [[KRe Kze] KZe].
    io_step H Pe HPe. io_step H KP HKP. destruct KP as [Ki Pi].
    unfold ret in H. inversion H; subst. reflexivity.
  - intros H. unfold ret in H. inversion H; subst. reflexivity.
Qed.

(** Every run of the body that returns went through the vacuum propagation
    with the launch wavevector of its coordinate mode. *)
Lemma launch_beam_body_inv
    (a : launch_args) (f : py_flag) (log : list event) (out : launch_output) :
  launch_beam_body a f = (log, Ok out) ->
  let tor := np_deg2rad (toroidal_launch_angle_Torbeam a) in
  let pol := np_deg2rad (poloidal_launch_angle_Torbeam a) in
  exists K0 psi K_launch Psi_launch log',
    angular_frequency_to_wavenumber (launch_angular_frequency a) = Ok K0
    /\ Psi_w_beam_diagonal K0 (launch_beam_curvature a) (launch_beam_width a) = Ok psi
    /\ ((flag_coordinate_system a = "cylindrical"
         /\ K_launch = (- K0 * cos tor * cos pol,
                        - K0 * sin tor * cos pol * fst (fst (launch_position a)),
                        - K0 * sin pol))
        \/ (flag_coordinate_system a = "cartesian"
            /\ K_launch = (- K0 * cos tor * cos pol,
                           - K0 * sin tor * cos pol,
                           - K0 * sin pol)))
    /\ launch_beam_propagate a f tor pol K0 K_launch (M2_scale psi np_eye2)
         (launch_rotation_matrix a) Psi_launch
       = (log', Ok out).
Proof.
  intros H tor pol. unfold Launch.launch_beam_body in H.
  io_step H K0 HK0. apply lift_Ok_inv in HK0. destruct HK0 as [HK0 _].
  io_step H u Hu. cbv zeta in H.
  io_step H K_assigned HK. io_step H K_launch HKl.
  fold tor pol in HK, H.
  destruct (String.eqb_spec (flag_coordinate_system a) "cylindrical") as [Ecyl | Ecyl].
  - destruct (launch_position a) as [[p0 p1] p2] eqn:Hp.
    unfold ret in HK. inversion HK; subst K_assigned. clear HK.
    simpl in HKl. unfold ret in HKl. inversion HKl; subst K_launch. clear HKl.
    io_step H u1 Hu1. io_step H psi Hpsi.
    apply lift_Ok_inv in Hpsi. destruct Hpsi as [Hpsi _].
    io_step H u2 Hu2. io_step H mats Hmats. destruct mats as [beam lab].
    rewrite Ecyl in Hmats. change ("cylindrical" =? "cartesian") with false in Hmats.
    unfold ret in Hmats. inversion Hmats; subst beam lab. clear Hmats.
    io_step H Pl HPl. io_step H u3 Hu3.
    exists K0, psi. eexists. exists Pl. eexists.
    split; [exact HK0 |]. split; [exact Hpsi |].
    split; [left; split; [exact Ecyl | reflexivity] |].
    exact H.
  - destruct (String.eqb_spec (flag_coordinate_system a) "cartesian") as [Ecart | Ecart].
    + cbv beta iota zeta delta [iobind emit ret app] in HK.
      inversion HK; subst K_assigned. clear HK.
      simpl in HKl. unfold ret in HKl. inversion HKl; subst K_launch. clear HKl.
      io_step H u1 Hu1. io_step H psi Hpsi.
      apply lift_Ok_inv in Hpsi. destruct Hpsi as [Hpsi _].
      io_step H u2 Hu2. io_step H mats Hmats. destruct mats as [beam lab].
      io_step H Pl HPl. io_step H u3 Hu3.
      exists K0, psi. eexists. exists Pl. eexists.
      split; [exact HK0 |]. split; [exact Hpsi |].
      split; [right; split; [exact Ecart | reflexivity] |].
      exact H.
    + unfold ret in HK. inversion HK; subst K_assigned.
      simpl in HKl. discriminate HKl.
Qed.

Lemma launch_beam_inv (a : launch_args) (log : list event) (out : launch_output) :
  launch_beam a = (log, Ok out) ->
  exists f l0 l1,
    normalise_Psi_BC_flag (Psi_BC_flag a) = (l0, Ok f)
    /\ launch_beam_body a f = (l1, Ok out).
Proof.
  unfold Launch.launch_beam. intros H.
  io_step H f Hf. exists f. eexists. eexists. split; [exact Hf | exact H].
Qed.

(** X20: the launch wavevector of every returned tuple has the vacuum
    magnitude [K0]: in Cartesian mode [K_R^2 + K_zeta^2 + K_Z^2 = K0^2], and in
    cylindrical mode, where [K_zeta] carries the factor [R] of the antenna,
    [K_R^2 + (K_zeta / R)^2 + K_Z^2 = K0^2] for [R <> 0]. *)
Theorem launch_K_magnitude (a : launch_args) (log : list event) (out : launch_output) :
  launch_beam a = (log, Ok out) ->
  exists K0 K_R K_zeta K_Z,
    angular_frequency_to_wavenumber (launch_angular_frequency a) = Ok K0
    /\ output_launch_K out = Some (K_R, K_zeta, K_Z)
    /\ (flag_coordinate_system a = "cartesian" ->
        K_R * K_R + K_zeta * K_zeta + K_Z * K_Z = K0 * K0)
    /\ (flag_coordinate_system a = "cylindrical" ->
        fst (fst (launch_position a)) <> 0 ->
        K_R * K_R
        + (K_zeta / fst (fst (launch_position a))) * (K_zeta / fst (fst (launch_position a)))
        + K_Z * K_Z = K0 * K0).
Proof.
  intros H.
  destruct (launch_beam_inv a log out H) as (f & l0 & l1 & Hf & Hbody).
  destruct (launch_beam_body_inv a f l1 out Hbody)
    as (K0 & psi & K_launch & Pl & l' & HK0 & Hpsi & Hmode & Hprop).
  pose proof (launch_beam_propagate_launch_K _ _ _ _ _ _ _ _ _ _ _ Hprop) as HK.
  set (tor := np_deg2rad (toroidal_launch_angle_Torbeam a)) in *.
  set (pol := np_deg2rad (poloidal_launch_angle_Torbeam a)) in *.
  pose proof (sin_cos_square tor) as Ht. pose proof (sin_cos_square pol) as Hp.
  destruct Hmode as [[Hc ->] | [Hc ->]].
  - exists K0. do 3 eexists. split; [exact HK0 |]. split; [exact HK |]. split.
    + intros Hcart. rewrite Hc in Hcart. discriminate Hcart.
    + intros _ HR.
      set (R0 := fst (fst (launch_position a))) in *.
      replace (- K0 * sin tor * cos pol * R0 / R0) with (- K0 * sin tor * cos pol)
        by (field; exact HR).
      replace (K0 * K0)
        with (K0 * K0 * ((sin tor * sin tor + cos tor * cos tor) * (cos pol * cos pol)
                         + sin pol * sin pol))
        by (rewrite Ht; replace (1 * (cos pol * cos pol) + sin pol * sin pol)
              with (sin pol * sin pol + cos pol * cos pol) by ring;
            rewrite Hp; ring).
      ring.
  - exists K0. do 3 eexists. split; [exact HK0 |]. split; [exact HK |]. split.
    + intros _.
      replace (K0 * K0)
        with (K0 * K0 * ((sin tor * sin tor + cos tor * cos tor) * (cos pol * cos pol)
                         + sin pol * sin pol))
        by (rewrite Ht; replace (1 * (cos pol * cos pol) + sin pol * sin pol)
              with (sin pol * sin pol + cos pol * cos pol) by ring;
            rewrite Hp; ring).
      ring.
    + intros Hcyl. rewrite Hc in Hcyl. discriminate Hcyl.
Qed.

(** X21: [launch_beam] never returns [None]: the [return print(...)] of
    line 281 cannot be reached, every returned value is one of the two
    tuples. *)
Theorem launch_beam_never_returns_None
    (a : launch_args) (log : list event) (out : launch_output) :
  launch_beam a = (log, Ok out) -> out <> ReturnedNone.
Proof.
  intros H.
  destruct (launch_beam_inv a log out H) as (f & l0 & l1 & Hf & Hbody).
  destruct (launch_beam_body_inv a f l1 out Hbody)
    as (K0 & psi & K_launch & Pl & l' & _ & _ & _ & Hprop).
  pose proof (launch_beam_propagate_launch_K _ _ _ _ _ _ _ _ _ _ _ Hprop) as HK.
  intros ->. discriminate HK.
Qed.



(** X23: in Cartesian mode the launch matrix stays symmetric.  Writing the
    gradient of the dispersion function first into the third column and then
    into the third row of a beam-frame matrix whose transverse block is
    symmetric gives a symmetric matrix, and so is its image in the lab
    frame. *)
Theorem cartesian_launch_matrix_symmetric
    (a : launch_args) (K_launch : V3) (rotation_matrix Psi_beam beam lab : M3)
    (log : list event) :
  cartesian_launch_matrix a K_launch rotation_matrix Psi_beam = (log, Ok (beam, lab)) ->
  mget Psi_beam i0 i1 = mget Psi_beam i1 i0 ->
  symmetric beam /\ symmetric lab.
Proof.
  unfold cartesian_launch_matrix.
  destruct K_launch as [[KR Kzeta] KZ]. destruct (launch_position a) as [[p0 p1] p2].
  intros H Hxy.
  io_step H dH HdH. io_step H dX HdX. io_step H dY HdY. io_step H dZ HdZ.
  io_step H dKX HdKX. io_step H dKY HdKY. io_step H dKZ HdKZ.
  cbv beta iota zeta delta [iobind emit ret app] in H.
  inversion H; subst beam lab. clear H.
  assert (Hbeam : symmetric
            (mset (mset (mset (mset (mset (mset Psi_beam i0 i2 (RtoC dX))
                                          i1 i2 (RtoC dY))
                                    i2 i2 (RtoC dZ))
                              i2 i0 (RtoC dX))
                        i2 i1 (RtoC dY))
                  i2 i2 (RtoC dZ))).
  { unfold symmetric, np_transpose, mset, M3_of_fun. simpl.
    destruct Psi_beam; simpl in *. rewrite Hxy. reflexivity. }
  split; [exact Hbeam |].
  unfold symmetric, to_lab_frame in *.
  rewrite !np_transpose_matmul, np_transpose_involutive, Hbeam.
  rewrite np_matmul_assoc. reflexivity.
Qed.

End LaunchProperties.

Section LaunchPropertyWitnesses.

Import Launch.
Import More.
Open Scope string_scope.

Local Abbreviation sample_find_entry_point roots minimum :=
  (Launch.find_entry_point Sample.toroidal_to_cartesian Sample.cartesian_to_cylindrical
     (Sample.spline_roots_are roots) (Sample.minimize_scalar_is minimum)
     Sample.secant Sample.str_of_float).

Local Abbreviation sample_flux_distance field :=
  (Launch.poloidal_flux_boundary_along_line Sample.cartesian_to_cylindrical
     Sample.antenna
     (Launch.step_array Sample.toroidal_to_cartesian 10
        Sample.antenna_poloidal Sample.antenna_toroidal)
     field 1).

Local Abbreviation launch_beam_with roots :=
  (Launch.launch_beam Sample.toroidal_to_cartesian Sample.cartesian_to_cylindrical
     (Sample.spline_roots_are roots) (Sample.minimize_scalar_is (mkOptimize 0.3 0))
     Sample.secant
     Sample.str_of_float Sample.angular_frequency_to_wavenumber
     Sample.find_Psi_3D_lab Sample.find_K_lab_Cartesian Sample.find_K_lab
     Sample.cylindrical_to_cartesian
     Sample.apply_discontinuous_BC Sample.apply_continuous_BC).

Local Abbreviation sample_launch_beam := (launch_beam_with [0.3]).

Lemma normalise_Psi_BC_flag_canonical_witness :
  In (PyStr "continuous") [PyNone; PyStr "continuous"; PyStr "discontinuous"]
  /\ normalise_Psi_BC_flag (PyStr "continuous") = ([], Ok (PyStr "continuous")).
Proof.
  eapply (normalise_Psi_BC_flag_canonical (PyBool true)). reflexivity.
Defined.

Lemma find_entry_point_refinement_fails_witness :
  sample_find_entry_point [0.3] (mkOptimize 0.3 0)
    Sample.antenna Sample.antenna_poloidal Sample.antenna_toroidal 1
    Sample.runaway_field boundary_adjust_default
  = Raise (RuntimeError
      "Could not find plasma boundary, root finding failed with 'convergence error'").
Proof.
  destruct runaway_secant as [p Hp].
  pose proof (find_entry_point_refinement_fails
                Sample.toroidal_to_cartesian Sample.cartesian_to_cylindrical
                (Sample.spline_roots_are [0.3])
                (Sample.minimize_scalar_is (mkOptimize 0.3 0))
                Sample.secant Sample.str_of_float
                Sample.antenna Sample.antenna_poloidal Sample.antenna_toroidal 1
                Sample.runaway_field boundary_adjust_default 10 0.3 []
                (sample_max_length _) eq_refl) as Hrun.
  cbv zeta in Hrun. rewrite Hp in Hrun. exact (Hrun eq_refl).
Defined.

Lemma find_entry_point_empty_grid_witness :
  sample_find_entry_point [0.3] (mkOptimize 0.3 0)
    Sample.antenna Sample.antenna_poloidal Sample.antenna_toroidal 1
    empty_field boundary_adjust_default
  = Raise (ValueError
      "zero-size array to reduction operation maximum which has no identity").
Proof.
  apply find_entry_point_empty_grid. left. reflexivity.
Defined.

Lemma find_entry_point_inside_witness :
  exists R_ zeta Z_,
    sample_find_entry_point [0.3] (mkOptimize 0.1 (-1))
      Sample.antenna Sample.antenna_poloidal Sample.antenna_toroidal 1
      Sample.slab_field boundary_adjust_default
    = Ok (R_, zeta, Z_)
    /\ poloidal_flux Sample.slab_field R_ Z_ <= 1.
Proof.
  assert (Hs : Sample.secant (sample_flux_distance Sample.slab_field)
                 0.3 (0.3 + 1e-3)
               = mkRoot true "converged" 0.3).
  { apply (sample_secant_exact_root (fun Z_ => (Z_ + 2) * (Z_ + 2) / 4)); lra. }
  destruct (find_entry_point_inside
              Sample.toroidal_to_cartesian Sample.cartesian_to_cylindrical
              (Sample.spline_roots_are [0.3])
              (Sample.minimize_scalar_is (mkOptimize 0.1 (-1)))
              Sample.secant Sample.str_of_float
              Sample.antenna Sample.antenna_poloidal Sample.antenna_toroidal 1
              Sample.slab_field boundary_adjust_default 10 0.3 []
              (sample_max_length _) eq_refl)
    as (R_ & zeta & Z_ & Hrun & _ & Hflux).
  - rewrite Hs. reflexivity.
  - rewrite Hs. simpl root. unfold Sample.slab_field.
    rewrite sample_flux_along_line. lra.
  - exists R_, zeta, Z_. split; [exact Hrun | exact Hflux].
Defined.

Lemma max_length_bounds_distance_witness :
  np_hypot (3 - 2) (-3 - 1) <= 10.
Proof.
  apply (max_length_bounds_distance 3 0 (-3) Sample.grazing_field 10 3 5 2 1).
  - apply sample_max_length.
  - simpl. auto.
  - simpl. auto.
  - rewrite Rabs_pos_eq; lra.
  - rewrite Rabs_pos_eq; lra.
Defined.

Lemma launch_beam_without_vacuum_propagation_witness :
  exists log K_launch Psi_launch,
    sample_launch_beam
      (sample_args Sample.grazing_field Sample.no_hamiltonian false 0.05
         (PyStr "continuous") "cylindrical")
    = (log, Ok (NoVacuumPropagation K_launch Sample.antenna K_launch
                  Psi_launch Psi_launch)).
Proof.
  do 3 eexists.
  eapply (launch_beam_without_vacuum_propagation
            Sample.toroidal_to_cartesian Sample.cartesian_to_cylindrical
            (Sample.spline_roots_are [0.3]) (Sample.minimize_scalar_is (mkOptimize 0.3 0))
            Sample.secant
            Sample.str_of_float Sample.angular_frequency_to_wavenumber
            Sample.find_Psi_3D_lab Sample.find_K_lab_Cartesian Sample.find_K_lab
            Sample.cylindrical_to_cartesian
            Sample.apply_discontinuous_BC Sample.apply_continuous_BC
            (sample_args Sample.grazing_field Sample.no_hamiltonian false 0.05
               (PyStr "continuous") "cylindrical")).
  - reflexivity.
  - reflexivity.
  - reflexivity.
  - reflexivity.
  - reflexivity.
  - exact sample_diagonal.
  - reflexivity.
Defined.

Lemma launch_beam_entry_failure_witness :
  exists log msg,
    launch_beam_with []
      (sample_args Sample.distant_field Sample.no_hamiltonian true 0.05
         PyNone "cylindrical")
    = (log, Raise (RuntimeError msg)).
Proof.
  do 2 eexists.
  eapply (launch_beam_entry_failure
            Sample.toroidal_to_cartesian Sample.cartesian_to_cylindrical
            (Sample.spline_roots_are []) (Sample.minimize_scalar_is (mkOptimize 0.3 0))
            Sample.secant
            Sample.str_of_float Sample.angular_frequency_to_wavenumber
            Sample.find_Psi_3D_lab Sample.find_K_lab_Cartesian Sample.find_K_lab
            Sample.cylindrical_to_cartesian
            Sample.apply_discontinuous_BC Sample.apply_continuous_BC
            (sample_args Sample.distant_field Sample.no_hamiltonian true 0.05
               PyNone "cylindrical")).
  - reflexivity.
  - reflexivity.
  - reflexivity.
  - reflexivity.
  - reflexivity.
  - exact sample_diagonal.
  - reflexivity.
  - apply (find_entry_point_no_root
             Sample.toroidal_to_cartesian Sample.cartesian_to_cylindrical
             (Sample.spline_roots_are []) (Sample.minimize_scalar_is (mkOptimize 0.3 0))
             Sample.secant Sample.str_of_float
             (3, 0, -3) _ _ 1 Sample.distant_field boundary_adjust_default 10).
    + apply sample_max_length.
    + reflexivity.
Defined.

Lemma launch_beam_zero_width_witness :
  exists log,
    sample_launch_beam
      (sample_args Sample.grazing_field Sample.no_hamiltonian true 0 PyNone "cartesian")
    = (log, Raise (ZeroDivisionError "0.0 cannot be raised to a negative power")).
Proof.
  eapply (launch_beam_zero_width
            Sample.toroidal_to_cartesian Sample.cartesian_to_cylindrical
            (Sample.spline_roots_are [0.3]) (Sample.minimize_scalar_is (mkOptimize 0.3 0))
            Sample.secant
            Sample.str_of_float Sample.angular_frequency_to_wavenumber
            Sample.find_Psi_3D_lab Sample.find_K_lab_Cartesian Sample.find_K_lab
            Sample.cylindrical_to_cartesian
            Sample.apply_discontinuous_BC Sample.apply_continuous_BC
            (sample_args Sample.grazing_field Sample.no_hamiltonian true 0 PyNone
               "cartesian")).
  - reflexivity.
  - right. reflexivity.
  - reflexivity.
  - reflexivity.
Defined.

Lemma launch_K_magnitude_witness :
  exists K0 K_R K_zeta K_Z,
    Sample.angular_frequency_to_wavenumber
      (launch_angular_frequency (Sample.args PyNone "cylindrical")) = Ok K0
    /\ K_R * K_R + (K_zeta / 3) * (K_zeta / 3) + K_Z * K_Z = K0 * K0.
Proof.
  destruct sample_launch_run
    as (K_i & pos & launch_K & Psi_i & Psi_l & Psi_e & Psi_ec & d & Hrun).
  destruct (launch_K_magnitude
              Sample.toroidal_to_cartesian Sample.cartesian_to_cylindrical
              (Sample.spline_roots_are [0.3])
              (Sample.minimize_scalar_is (mkOptimize 0.3 0))
              Sample.secant
              Sample.str_of_float Sample.angular_frequency_to_wavenumber
              Sample.find_Psi_3D_lab Sample.find_K_lab_Cartesian Sample.find_K_lab
              Sample.cylindrical_to_cartesian
              Sample.apply_discontinuous_BC Sample.apply_continuous_BC
              (Sample.args PyNone "cylindrical") _ _ Hrun)
    as (K0 & K_R & K_zeta & K_Z & HK0 & _ & _ & Hcyl).
  exists K0, K_R, K_zeta, K_Z. split; [exact HK0 |].
  apply Hcyl; [reflexivity | simpl; lra].
Defined.

Lemma launch_beam_never_returns_None_witness :
  exists log out,
    sample_launch_beam (Sample.args PyNone "cylindrical") = (log, Ok out)
    /\ out <> ReturnedNone.
Proof.
  destruct sample_launch_run
    as (K_i & pos & launch_K & Psi_i & Psi_l & Psi_e & Psi_ec & d & Hrun).
  do 2 eexists. split; [exact Hrun |].
  exact (launch_beam_never_returns_None
           Sample.toroidal_to_cartesian Sample.cartesian_to_cylindrical
           (Sample.spline_roots_are [0.3])
           (Sample.minimize_scalar_is (mkOptimize 0.3 0))
           Sample.secant
           Sample.str_of_float Sample.angular_frequency_to_wavenumber
           Sample.find_Psi_3D_lab Sample.find_K_lab_Cartesian Sample.find_K_lab
           Sample.cylindrical_to_cartesian
           Sample.apply_discontinuous_BC Sample.apply_continuous_BC
           (Sample.args PyNone "cylindrical") _ _ Hrun).
Defined.


Lemma sample_cartesian_launch_matrix :
  exists log beam lab,
    cartesian_launch_matrix
      (sample_args Sample.grazing_field constant_hamiltonian true 0.05 PyNone "cartesian")
      (1, 2, 3) (rotation_matrix_tor 0) (make_array_3x3 (M2_scale (mkC 0 800) np_eye2))
    = (log, Ok (beam, lab)).
Proof.
  do 3 eexists. unfold cartesian_launch_matrix, sample_args, Sample.antenna.
  simpl launch_position. cbv beta iota.
  simpl hamiltonian. unfold constant_hamiltonian. simpl derivatives.
  cbv beta iota zeta delta [iobind lift emit ret app Evolution.getitem
                             launch_style_dict existsb String.eqb Ascii.eqb
                             Bool.eqb orb].
  reflexivity.
Qed.

Lemma cartesian_launch_matrix_symmetric_witness :
  exists log beam lab,
    cartesian_launch_matrix
      (sample_args Sample.grazing_field constant_hamiltonian true 0.05 PyNone "cartesian")
      (1, 2, 3) (rotation_matrix_tor 0) (make_array_3x3 (M2_scale (mkC 0 800) np_eye2))
    = (log, Ok (beam, lab))
    /\ symmetric beam /\ symmetric lab.
Proof.
  destruct sample_cartesian_launch_matrix as (log & beam & lab & Hrun).
  exists log, beam, lab. split; [exact Hrun |].
  apply (cartesian_launch_matrix_symmetric _ _ _ _ _ _ _ Hrun).
  reflexivity.
Defined.

End LaunchPropertyWitnesses.
